(** * wunder_python: a shallow embedding of the Wunderlist API driver

    The driver is one Python class, [Wunder], whose methods translate a call
    into one or more HTTP requests and hand back the decoded JSON body.  The
    embedding keeps the structure of the source:

    - decoded JSON bodies and keyword arguments are Python values ([value]);
    - Python exceptions are the constructors of [exc];
    - a method is a computation in the monad [M], which threads the state of
      the remote service, stops at the first exception and records every
      request it sends together with the response it got ([trace]).

    The remote service and the HTTP library are outside the driver: they are
    the class [Service].  *)

From Stdlib Require Import ZArith List String Ascii Bool Lia.
From Stdlib Require Import DecimalString DecimalZ DecimalPos.
Import ListNotations.
Open Scope string_scope.
Open Scope Z_scope.

Set Implicit Arguments.
Set Warnings "-register-all".

(** ** Python values *)

(** What [json.loads] produces and [json.dumps] accepts.  JSON numbers are
    the integers (identifiers, revisions and status codes are integers in
    this API); a [dict] keeps its items in insertion order. *)
Inductive value : Type :=
| VNone
| VBool (b : bool)
| VInt (n : Z)
| VStr (s : string)
| VList (l : list value)
| VDict (d : list (string * value)).

(** A [dict] with string keys, as in a decoded body or in [**kwargs]. *)
Definition pydict := list (string * value).

Inductive exc : Type :=
| ValueError (arg : value)
| TypeError (msg : string)
| KeyError (arg : value)
| AttributeError (msg : string)
| JSONDecodeError.

(** The outcome of evaluating a Python expression. *)
Inductive result (A : Type) : Type :=
| Ok (a : A)
| Raise (e : exc).
Arguments Ok {A} a.
Arguments Raise {A} e.

Definition b2z (b : bool) : Z := if b then 1 else 0.

(** [d.get(k)]: the value bound to [k], if any. *)
Fixpoint dict_get (k : string) (d : pydict) : option value :=
  match d with
  | [] => None
  | (k', v) :: d' => if String.eqb k' k then Some v else dict_get k d'
  end.

(** [a == b]: [True == 1] and [False == 0] hold in Python, and two dicts are
    compared without regard to the order of their items. *)
Fixpoint py_eq (a b : value) {struct a} : bool :=
  match a, b with
  | VNone, VNone => true
  | VBool x, VBool y => Bool.eqb x y
  | VBool x, VInt n => b2z x =? n
  | VInt n, VBool x => n =? b2z x
  | VInt m, VInt n => m =? n
  | VStr s, VStr t => String.eqb s t
  | VList l, VList l' =>
      (fix go (l l' : list value) {struct l} : bool :=
         match l, l' with
         | [], [] => true
         | x :: xs, y :: ys => py_eq x y && go xs ys
         | _, _ => false
         end) l l'
  | VDict d, VDict d' =>
      (List.length d =? List.length d')%nat &&
      (fix go (d : pydict) {struct d} : bool :=
         match d with
         | [] => true
         | (k, v) :: r =>
             match dict_get k d' with
             | Some v' => py_eq v v' && go r
             | None => false
             end
         end) d
  | _, _ => false
  end.

(** [k in d] for a dict [d]. *)
Definition dict_has (k : string) (d : pydict) : bool :=
  match dict_get k d with Some _ => true | None => false end.

(** [d[k] = v]: an existing key keeps its place, a new key goes last. *)
Fixpoint dict_set (k : string) (v : value) (d : pydict) : pydict :=
  match d with
  | [] => [(k, v)]
  | (k', v') :: d' =>
      if String.eqb k' k then (k', v) :: d' else (k', v') :: dict_set k v d'
  end.

(** [d.update(e)] *)
Definition dict_update (d e : pydict) : pydict :=
  fold_left (fun acc kv => dict_set (fst kv) (snd kv) acc) e d.

(** [t in s] for two strings. *)
Fixpoint is_substring (t s : string) : bool :=
  String.prefix t s ||
  match s with
  | EmptyString => false
  | String _ s' => is_substring t s'
  end.

Definition type_name (v : value) : string :=
  match v with
  | VNone => "NoneType"
  | VBool _ => "bool"
  | VInt _ => "int"
  | VStr _ => "str"
  | VList _ => "list"
  | VDict _ => "dict"
  end.

(** [len(v)] *)
Definition py_len (v : value) : result nat :=
  match v with
  | VStr s => Ok (String.length s)
  | VList l => Ok (List.length l)
  | VDict d => Ok (List.length d)
  | _ => Raise (TypeError ("object of type '" ++ type_name v ++ "' has no len()"))
  end.

(** [v[k]] for a string subscript [k]. *)
Definition py_getitem (v : value) (k : string) : result value :=
  match v with
  | VDict d =>
      match dict_get k d with
      | Some x => Ok x
      | None => Raise (KeyError (VStr k))
      end
  | VList _ => Raise (TypeError "list indices must be integers or slices, not str")
  | VStr _ => Raise (TypeError "string indices must be integers")
  | _ => Raise (TypeError ("'" ++ type_name v ++ "' object is not subscriptable"))
  end.

(** [x in c] *)
Definition py_contains (x c : value) : result bool :=
  match c with
  | VList l => Ok (existsb (fun e => py_eq e x) l)
  | VDict d =>
      match x with
      | VStr k => Ok (dict_has k d)
      | VList _ | VDict _ =>
          Raise (TypeError ("unhashable type: '" ++ type_name x ++ "'"))
      | _ => Ok false
      end
  | VStr s =>
      match x with
      | VStr t => Ok (is_substring t s)
      | _ =>
          Raise (TypeError ("'in <string>' requires string as left operand, not "
                            ++ type_name x))
      end
  | _ => Raise (TypeError ("argument of type '" ++ type_name c ++ "' is not iterable"))
  end.

(** The items a [for] loop over [v] visits. *)
Fixpoint chars (s : string) : list value :=
  match s with
  | EmptyString => []
  | String a s' => VStr (String a EmptyString) :: chars s'
  end.

Definition py_iter (v : value) : result (list value) :=
  match v with
  | VList l => Ok l
  | VDict d => Ok (map (fun kv => VStr (fst kv)) d)
  | VStr s => Ok (chars s)
  | _ => Raise (TypeError ("'" ++ type_name v ++ "' object is not iterable"))
  end.

(** [l.append(x)] *)
Definition py_append (l x : value) : result value :=
  match l with
  | VList xs => Ok (VList (xs ++ [x]))
  | _ => Raise (AttributeError ("'" ++ type_name l ++ "' object has no attribute 'append'"))
  end.

(** [str(n)] for an integer. *)
Definition str_int (n : Z) : string := NilZero.string_of_int (Z.to_int n).

(** ** Dicts built by the driver itself

    [list_ids] and [folder_ids] fill a dict whose keys are whatever the
    service sent as titles, so the keys are values; a key must be hashable
    and two keys are the same when they are [==]. *)
Definition keydict := list (value * value).

Definition hashable (v : value) : bool :=
  match v with
  | VList _ | VDict _ => false
  | _ => true
  end.

Fixpoint kd_get (k : value) (d : keydict) : option value :=
  match d with
  | [] => None
  | (k', v) :: d' => if py_eq k' k then Some v else kd_get k d'
  end.

Fixpoint kd_set (k v : value) (d : keydict) : keydict :=
  match d with
  | [] => [(k, v)]
  | (k', v') :: d' =>
      if py_eq k' k then (k', v) :: d' else (k', v') :: kd_set k v d'
  end.

Definition unhashable (v : value) : exc :=
  TypeError ("unhashable type: '" ++ type_name v ++ "'").

(** ** The transport *)

Inductive verb : Type := GET | POST | PATCH | DELETE.

(** A query parameter is a value [v] or the string [str(v)]. *)
Inductive param : Type :=
| PVal (v : value)
| PStr (v : value).

Definition headers_t := list (string * string).

(** What the driver hands to [requests.get] and its siblings.  [data] is the
    payload that [json.dumps] serialises. *)
Record request : Type := mkRequest {
  method : verb;
  url : string;
  params : option (list (string * param));
  data : option value;
  headers : headers_t
}.

(** A [requests.Response]: the status code and, when the body decodes, what
    [response.json()] returns. *)
Record response : Type := mkResponse {
  status_code : Z;
  body : option value
}.

Definition exchange : Type := request * response.

(** [response.json()] *)
Definition json (r : response) : result value :=
  match body r with
  | Some v => Ok v
  | None => Raise JSONDecodeError
  end.

(** The remote service seen through the HTTP library: a request is answered
    and may change the state of the service. *)
Class Service (S : Type) : Type := {
  serve : S -> request -> response * S
}.

(** ** The monad of the driver's methods *)

Record outcome (S A : Type) : Type := mkOutcome {
  res : result A;
  srv : S;
  trace : list exchange
}.

Definition M (S A : Type) : Type := S -> outcome S A.

Definition ret {S A} (a : A) : M S A :=
  fun s => mkOutcome (Ok a) s [].

Definition raise {S A} (e : exc) : M S A :=
  fun s => mkOutcome (Raise e) s [].

Definition bind {S A B} (m : M S A) (k : A -> M S B) : M S B :=
  fun s =>
    let o := m s in
    match res o with
    | Ok a =>
        let o' := k a (srv o) in
        mkOutcome (res o') (srv o') (trace o ++ trace o')
    | Raise e => mkOutcome (Raise e) (srv o) (trace o)
    end.

Definition lift {S A} (r : result A) : M S A :=
  match r with
  | Ok a => ret a
  | Raise e => raise e
  end.

Definition send {S} `{Service S} (req : request) : M S response :=
  fun s =>
    let (resp, s') := serve s req in
    mkOutcome (Ok resp) s' [(req, resp)].

Definition rbind {A B} (r : result A) (k : A -> result B) : result B :=
  match r with
  | Ok a => k a
  | Raise e => Raise e
  end.

Notation "x <- m ;; k" := (bind m (fun x => k))
  (at level 61, m at next level, right associativity).
Notation "'let?' x := r 'in' k" := (rbind r (fun x => k))
  (at level 61, x name, r at next level, right associativity).

(** The requests of a trace, in the order they were sent. *)
Definition requests (t : list exchange) : list request := map fst t.

(** The last exchange of a trace. *)
Definition last_exchange (t : list exchange) : option exchange :=
  match rev t with
  | [] => None
  | x :: _ => Some x
  end.

(** ** The driver: class [Wunder] *)

(** The object built by [__init__]: the two header sets. *)
Record Wunder : Type := mkWunder {
  headers_plain : headers_t;
  headers_payload : headers_t
}.

Definition __init__ (oauth_token client_id : string) : Wunder :=
  {| headers_plain := [("X-Access-Token", oauth_token);
                       ("X-Client-ID", client_id)];
     headers_payload := [("X-Access-Token", oauth_token);
                         ("X-Client-ID", client_id);
                         ("Content-Type", "application/json")] |}.

(** [v is None] *)
Definition is_none (v : value) : bool :=
  match v with
  | VNone => true
  | _ => false
  end.

(** The keyword arguments [_get], [_post] and [_delete] look at. *)
Record kwargs_t : Type := mkKwargs {
  kw_payload : option value;
  kw_params : option (list (string * param))
}.

Definition no_kwargs : kwargs_t := mkKwargs None None.
Definition with_params (p : list (string * param)) : kwargs_t := mkKwargs None (Some p).
Definition with_payload (p : value) : kwargs_t := mkKwargs (Some p) None.

(** The block that opens [_get], [_post] and [_delete]: a payload becomes the
    request's data and selects the headers that carry the content type. *)
Definition prepare (self : Wunder) (m : verb) (u : string) (kw : kwargs_t) : request :=
  match kw_payload kw with
  | Some p => mkRequest m u (kw_params kw) (Some p) (headers_payload self)
  | None => mkRequest m u (kw_params kw) None (headers_plain self)
  end.

Definition title_too_long : exc :=
  ValueError (VStr "Title is too long (255 char max).").

Definition revision_incorrect : exc :=
  ValueError (VStr "Revision number is incorrect.").

Definition _check_title (title : value) : result unit :=
  let? n := py_len title in
  if (255 <? n)%nat then Raise title_too_long else Ok tt.

Definition _check_response (response : response) : result unit :=
  let? jres := json response in
  match jres with
  | VList _ => Ok tt
  | VDict d =>
      if dict_has "error" d then
        let? err := py_getitem jres "error" in
        let? conflict := py_contains (VStr "revision_conflict") err in
        if conflict then Raise revision_incorrect
        else
          let? err' := py_getitem jres "error" in
          let? msg := py_getitem err' "message" in
          Raise (ValueError msg)
      else Ok tt
  | _ =>
      Raise (AttributeError ("'" ++ type_name jres ++ "' object has no attribute 'keys'"))
  end.

(** The loop of [list_ids]; the right-hand side [zlist['id']] is evaluated
    before the key [zlist['title']]. *)
Fixpoint list_ids_loop (items : list value) (list_ids : keydict) : result keydict :=
  match items with
  | [] => Ok list_ids
  | zlist :: rest =>
      let? i := py_getitem zlist "id" in
      let? t := py_getitem zlist "title" in
      if hashable t then list_ids_loop rest (kd_set t i list_ids)
      else Raise (unhashable t)
  end.

(** [list_ids] returns the whole dict, or one of its values. *)
Inductive list_ids_result : Type :=
| AllIds (d : keydict)
| OneId (v : value).

(** The loop of [get_note_id]. *)
Fixpoint get_note_id_loop (task_id : Z) (notes : list value) : result value :=
  match notes with
  | [] => Raise (KeyError (VStr "No note_id found for the given task_id."))
  | note :: rest =>
      let? t := py_getitem note "task_id" in
      if py_eq t (VInt task_id) then py_getitem note "id"
      else get_note_id_loop task_id rest
  end.

Definition exactly_one (who : string) : exc :=
  TypeError (who ++ " requires exactly one of list_id or task_id.").

Section Client.
Context {S : Type} `{Service S}.
Variable self : Wunder.

Definition _get (u : string) (kw : kwargs_t) : M S value :=
  response <- send (prepare self GET u kw) ;;
  _ <- lift (_check_response response) ;;
  lift (json response).

Definition _post (u : string) (kw : kwargs_t) : M S value :=
  response <- send (prepare self POST u kw) ;;
  _ <- lift (_check_response response) ;;
  lift (json response).

Definition _patch (u : string) (payload : value) : M S value :=
  response <- send (mkRequest PATCH u None (Some payload) (headers_payload self)) ;;
  _ <- lift (_check_response response) ;;
  lift (json response).

Definition _delete (u : string) (kw : kwargs_t) : M S bool :=
  response <- send (prepare self DELETE u kw) ;;
  _ <- lift (_check_response response) ;;
  ret (status_code response =? 204).

(** *** Lists *)

Definition get_lists : M S value :=
  _get "https://a.wunderlist.com/api/v1/lists" no_kwargs.

Definition get_list (list_id : Z) : M S value :=
  _get ("https://a.wunderlist.com/api/v1/lists/" ++ str_int list_id) no_kwargs.

Definition list_revision (list_id : Z) : M S value :=
  l <- get_list list_id ;;
  lift (py_getitem l "revision").

(** [if 'title' in kwargs: self._check_title(kwargs['title'])] *)
Definition check_kwargs_title (kwargs : pydict) : M S unit :=
  match dict_get "title" kwargs with
  | Some t => lift (_check_title t)
  | None => ret tt
  end.

Definition update_list (list_id : Z) (kwargs : pydict) : M S value :=
  _ <- check_kwargs_title kwargs ;;
  kwargs <- (if negb (dict_has "revision" kwargs)
             then r <- list_revision list_id ;; ret (dict_set "revision" r kwargs)
             else ret kwargs) ;;
  _patch ("http://a.wunderlist.com/api/v1/lists/" ++ str_int list_id) (VDict kwargs).

Definition make_list (title : string) : M S value :=
  _ <- lift (_check_title (VStr title)) ;;
  _post "http://a.wunderlist.com/api/v1/lists"
        (with_payload (VDict [("title", VStr title)])).

Definition make_list_public (list_id : Z) (revision : value) : M S bool :=
  let payload := [("public", VBool true)] in
  let payload := if negb (is_none revision)
                 then dict_set "revision" revision payload
                 else payload in
  is_public <- _patch ("http://a.wunderlist.com/api/v1/lists/" ++ str_int list_id)
                      (VDict payload) ;;
  p <- lift (py_getitem is_public "public") ;;
  ret (py_eq p (VStr "true")).

Definition delete_list (list_id : Z) (revision : value) : M S bool :=
  params <- (if is_none revision
             then r <- list_revision list_id ;; ret [("revision", PVal r)]
             else ret [("revision", PVal revision)]) ;;
  _delete ("http://a.wunderlist.com/api/v1/lists/" ++ str_int list_id)
          (with_params params).

(** *** Folders *)

Definition get_folder (folder_id : Z) : M S value :=
  _get ("http://a.wunderlist.com/api/v1/folders/" ++ str_int folder_id) no_kwargs.

Definition folder_revision (folder_id : Z) : M S value :=
  f <- get_folder folder_id ;;
  lift (py_getitem f "revision").

Definition make_folder (title : string) (list_ids : list Z) : M S value :=
  _ <- lift (_check_title (VStr title)) ;;
  _post "http://a.wunderlist.com/api/v1/folders"
        (with_payload (VDict [("title", VStr title);
                              ("list_ids", VList (map VInt list_ids))])).

Definition update_folder (folder_id : Z) (kwargs : pydict) : M S value :=
  _ <- check_kwargs_title kwargs ;;
  kwargs <- (if negb (dict_has "revision" kwargs)
             then r <- folder_revision folder_id ;; ret (dict_set "revision" r kwargs)
             else ret kwargs) ;;
  _patch ("http://a.wunderlist.com/api/v1/folders/" ++ str_int folder_id) (VDict kwargs).

Definition delete_folder (folder_id : Z) (revision : value) : M S bool :=
  revision <- (if is_none revision then folder_revision folder_id else ret revision) ;;
  _delete ("http://a.wunderlist.com/api/v1/folders/" ++ str_int folder_id)
          (with_params [("revision", PStr revision)]).

(** *** Tasks *)

Definition get_task (task_id : Z) : M S value :=
  _get ("http://a.wunderlist.com/api/v1/tasks/" ++ str_int task_id) no_kwargs.

(** [kwargs] are the keyword arguments left once the call has bound
    [list_id] and [title]: Python refuses, before the body runs, a call that
    names one of the two again among them. *)
Definition make_task (list_id : Z) (title : string) (kwargs : pydict) : M S value :=
  _ <- lift (_check_title (VStr title)) ;;
  _post "https://a.wunderlist.com/api/v1/tasks"
        (with_payload
           (VDict (dict_update [("list_id", VInt list_id); ("title", VStr title)]
                               kwargs))).

Definition update_task (task_id : Z) (kwargs : pydict) : M S value :=
  _ <- check_kwargs_title kwargs ;;
  kwargs <- (if negb (dict_has "revision" kwargs)
             then t <- get_task task_id ;;
                  r <- lift (py_getitem t "revision") ;;
                  ret (dict_set "revision" r kwargs)
             else ret kwargs) ;;
  _patch ("http://a.wunderlist.com/api/v1/tasks/" ++ str_int task_id) (VDict kwargs).

Definition delete_task (task_id : Z) (revision : value) : M S bool :=
  revision <- (if is_none revision
               then t <- get_task task_id ;; lift (py_getitem t "revision")
               else ret revision) ;;
  _delete ("http://a.wunderlist.com/api/v1/tasks/" ++ str_int task_id)
          (with_params [("revision", PStr revision)]).

(** *** Subtasks *)

Definition get_subtasks (list_id task_id : value) (completed : bool) : M S value :=
  params <- (if is_none list_id && is_none task_id
             then raise (exactly_one "get_subtasks")
             else if is_none task_id then ret [("list_id", PVal list_id)]
             else if is_none list_id then ret [("task_id", PVal task_id)]
             else raise (exactly_one "get_subtasks")) ;;
  let params := if completed
                then (params ++ [("completed", PVal (VBool true))])%list
                else params in
  _get "http://a.wunderlist.com/api/v1/subtasks" (with_params params).

Definition get_subtask (subtask_id : Z) : M S value :=
  _get ("https://a.wunderlist.com/api/v1/subtasks/" ++ str_int subtask_id) no_kwargs.

Definition make_subtask (task_id : Z) (title : string) (completed : bool) : M S value :=
  _ <- lift (_check_title (VStr title)) ;;
  let payload := [("task_id", VInt task_id); ("title", VStr title)] in
  let payload := if completed
                 then dict_set "completed" (VBool true) payload
                 else payload in
  _post "https://a.wunderlist.com/api/v1/subtasks" (with_payload (VDict payload)).

Definition update_subtask (subtask_id : Z) (kwargs : pydict) : M S value :=
  _ <- check_kwargs_title kwargs ;;
  kwargs <- (if negb (dict_has "revision" kwargs)
             then t <- get_subtask subtask_id ;;
                  r <- lift (py_getitem t "revision") ;;
                  ret (dict_set "revision" r kwargs)
             else ret kwargs) ;;
  _patch ("http://a.wunderlist.com/api/v1/subtasks/" ++ str_int subtask_id)
         (VDict kwargs).

Definition delete_subtask (subtask_id : Z) (revision : value) : M S bool :=
  revision <- (if is_none revision
               then t <- get_subtask subtask_id ;; lift (py_getitem t "revision")
               else ret revision) ;;
  _delete ("http://a.wunderlist.com/api/v1/subtasks/" ++ str_int subtask_id)
          (with_params [("revision", PVal revision)]).

(** *** Notes *)

Definition get_notes (list_id task_id : value) : M S value :=
  params <- (if is_none list_id && is_none task_id
             then raise (exactly_one "get_notes")
             else if is_none task_id then ret [("list_id", PVal list_id)]
             else if is_none list_id then ret [("task_id", PVal task_id)]
             else raise (exactly_one "get_notes")) ;;
  _get "http://a.wunderlist.com/api/v1/notes" (with_params params).

Definition get_note (note_id : Z) : M S value :=
  _get ("https://a.wunderlist.com/api/v1/notes/" ++ str_int note_id) no_kwargs.

Definition update_note (note_id : Z) (content : string) (revision : value) : M S value :=
  revision <- (if is_none revision
               then n <- get_note note_id ;; lift (py_getitem n "revision")
               else ret revision) ;;
  _patch ("http://a.wunderlist.com/api/v1/notes/" ++ str_int note_id)
         (VDict [("revision", revision); ("content", VStr content)]).

Definition delete_note (note_id : Z) (revision : value) : M S bool :=
  revision <- (if is_none revision
               then n <- get_note note_id ;; lift (py_getitem n "revision")
               else ret revision) ;;
  _delete ("http://a.wunderlist.com/api/v1/notes/" ++ str_int note_id)
          (with_params [("revision", PVal revision)]).

(** *** Special methods *)

Definition list_ids (title : option string) : M S list_ids_result :=
  lists <- get_lists ;;
  items <- lift (py_iter lists) ;;
  list_ids <- lift (list_ids_loop items []) ;;
  match title with
  | Some t =>
      match kd_get (VStr t) list_ids with
      | Some i => ret (OneId i)
      | None => raise (KeyError (VStr t))
      end
  | None => ret (AllIds list_ids)
  end.

Definition add_to_folder (list_id folder_id : Z) : M S value :=
  folder <- get_folder folder_id ;;
  list_ids <- lift (py_getitem folder "list_ids") ;;
  present <- lift (py_contains (VInt list_id) list_ids) ;;
  list_ids <- (if negb present
               then lift (py_append list_ids (VInt list_id))
               else ret list_ids) ;;
  update_folder folder_id [("list_ids", list_ids)].

Definition get_note_id (task_id : Z) : M S value :=
  task <- get_task task_id ;;
  list_id <- lift (py_getitem task "list_id") ;;
  notes <- get_notes list_id VNone ;;
  items <- lift (py_iter notes) ;;
  lift (get_note_id_loop task_id items).
End Client.

(** *** The remaining methods *)

Section ClientRest.
Context {S : Type} `{Service S}.
Variable self : Wunder.

Definition get_user : M S value :=
  _get self "https://a.wunderlist.com/api/v1/user" no_kwargs.

Definition get_users (list_id : value) : M S value :=
  if negb (is_none list_id)
  then _get self "http://a.wunderlist.com/api/v1/users"
            (with_params [("list_id", PVal list_id)])
  else _get self "http://a.wunderlist.com/api/v1/users" no_kwargs.

Definition get_folders : M S value :=
  _get self "http://a.wunderlist.com/api/v1/folders" no_kwargs.

Definition get_folder_revisions : M S value :=
  _get self "http://a.wunderlist.com/api/v1/folder_revisions" no_kwargs.

Definition get_tasks (list_id : Z) (completed : bool) : M S value :=
  _get self "http://a.wunderlist.com/api/v1/tasks"
       (with_params [("list_id", PVal (VInt list_id));
                     ("completed", PVal (VBool completed))]).

Definition make_note (task_id : Z) (content : string) : M S value :=
  _post self "https://a.wunderlist.com/api/v1/notes"
        (with_payload (VDict [("task_id", VInt task_id); ("content", VStr content)])).

(** The loop of [folder_ids] has the body of the loop of [list_ids], with
    [folder] for [zlist]. *)
Definition folder_ids : M S keydict :=
  folders <- get_folders ;;
  items <- lift (py_iter folders) ;;
  lift (list_ids_loop items []).

End ClientRest.

(** ** Two services *)

(** *** A scripted service

    It answers the requests it receives with the responses of a script, in
    order, whatever the requests are; once the script is over the service is
    unavailable. *)
Definition script := list response.

Definition unavailable : response := mkResponse 503 None.

Definition scripted_serve (s : script) (_ : request) : response * script :=
  match s with
  | [] => (unavailable, [])
  | r :: rs => (r, rs)
  end.

#[export] Instance scripted : Service script := {| serve := scripted_serve |}.

(** *** A folder service

    The part of the remote service that [add_to_folder] talks to, as the
    driver's documentation describes it: a folder has a title, the list of
    the identifiers of its lists and a revision; a GET returns the folder; a
    PATCH that carries the current revision replaces the title and the
    lists by the ones it carries ("this will replace the lists in the
    folder") and moves the revision on; a PATCH with another revision is a
    revision conflict. *)
Record folder : Type := mkFolder {
  folder_title : string;
  folder_lists : list Z;
  folder_rev : Z
}.

Definition folders := list (Z * folder).

Fixpoint lookup (id : Z) (st : folders) : option folder :=
  match st with
  | [] => None
  | (i, f) :: st' => if i =? id then Some f else lookup id st'
  end.

Fixpoint store (id : Z) (f : folder) (st : folders) : folders :=
  match st with
  | [] => [(id, f)]
  | (i, g) :: st' => if i =? id then (i, f) :: st' else (i, g) :: store id f st'
  end.

(** The lists of a folder of the service. *)
Definition membership (st : folders) (id : Z) : option (list Z) :=
  option_map folder_lists (lookup id st).

Definition folder_json (id : Z) (f : folder) : value :=
  VDict [("id", VInt id);
         ("title", VStr (folder_title f));
         ("list_ids", VList (map VInt (folder_lists f)));
         ("revision", VInt (folder_rev f));
         ("type", VStr "folder")].

Definition error_json (type message : string) : value :=
  VDict [("error", VDict [("type", VStr type); ("message", VStr message)])].

Definition conflict_json : value :=
  VDict [("error", VDict [("type", VStr "revision_conflict");
                          ("revision_conflict", VBool true);
                          ("message", VStr "There is a conflict with the given data.")])].

Definition not_found : response :=
  mkResponse 404 (Some (error_json "not_found" "The resource you requested could not be found.")).

Definition unprocessable : response :=
  mkResponse 422 (Some (error_json "validation_error" "The request data is invalid.")).

Definition conflict : response := mkResponse 409 (Some conflict_json).

Fixpoint strip_prefix (p s : string) : option string :=
  match p, s with
  | EmptyString, _ => Some s
  | String a p', String b s' => if Ascii.eqb a b then strip_prefix p' s' else None
  | String _ _, EmptyString => None
  end.

Definition parse_id (s : string) : option Z :=
  option_map Z.of_int (NilZero.int_of_string s).

Definition folders_base : string := "http://a.wunderlist.com/api/v1/folders/".

(** The folder a URL names. *)
Definition route (u : string) : option Z :=
  match strip_prefix folders_base u with
  | Some tail => parse_id tail
  | None => None
  end.

Fixpoint ints_of (vs : list value) : option (list Z) :=
  match vs with
  | [] => Some []
  | VInt n :: vs' => option_map (cons n) (ints_of vs')
  | _ :: _ => None
  end.

(** The folder after a PATCH with the fields [d], if they are well formed. *)
Definition patched (d : pydict) (f : folder) : option folder :=
  let title := match dict_get "title" d with
               | None => Some (folder_title f)
               | Some (VStr t) => Some t
               | Some _ => None
               end in
  let lists := match dict_get "list_ids" d with
               | None => Some (folder_lists f)
               | Some (VList vs) => ints_of vs
               | Some _ => None
               end in
  match title, lists with
  | Some t, Some l => Some (mkFolder t l (folder_rev f + 1))
  | _, _ => None
  end.

Definition current_revision (d : pydict) (f : folder) : bool :=
  match dict_get "revision" d with
  | Some (VInt r) => r =? folder_rev f
  | _ => false
  end.

Definition folder_serve (st : folders) (req : request) : response * folders :=
  match route (url req) with
  | None => (not_found, st)
  | Some id =>
      match lookup id st with
      | None => (not_found, st)
      | Some f =>
          match method req, data req with
          | GET, _ => (mkResponse 200 (Some (folder_json id f)), st)
          | PATCH, Some (VDict d) =>
              if current_revision d f then
                match patched d f with
                | Some f' => (mkResponse 200 (Some (folder_json id f')), store id f' st)
                | None => (unprocessable, st)
                end
              else (conflict, st)
          | _, _ => (unprocessable, st)
          end
      end
  end.

#[export] Instance folder_service : Service folders := {| serve := folder_serve |}.


(** ** Vocabulary of the statements *)

(** The call stops with exception [e] in state [s] without having sent
    anything. *)
Definition fails_before_sending {S A} (o : outcome S A) (s : S) (e : exc) : Prop :=
  res o = Raise e /\ srv o = s /\ trace o = [].

(** The verbs of the requests of a trace, in order. *)
Definition verbs (t : list exchange) : list verb := map method (requests t).

(** The body that [_get], [_post] and [_patch] share: send, validate, decode. *)
Definition call {S} `{Service S} (req : request) : M S value :=
  response <- send req ;;
  _ <- lift (_check_response response) ;;
  lift (json response).

(** The title among the keyword arguments of an update, if any, passes
    [_check_title]. *)
Definition title_ok (kwargs : pydict) : Prop :=
  match dict_get "title" kwargs with
  | Some t => _check_title t = Ok tt
  | None => True
  end.

(** The query parameter that scopes [get_subtasks] and [get_notes] when
    exactly one of [list_id] and [task_id] is given. *)
Definition scope_param (list_id task_id : value) : string * param :=
  if is_none task_id then ("list_id", PVal list_id) else ("task_id", PVal task_id).

(** A call that sends one request, with verb [w]. *)
Definition write_only {S A} (w : verb) (o : outcome S A) : Prop :=
  exists x, trace o = [x] /\ method (fst x) = w.

(** A call that first runs [read], which sends one GET; when [read] returns,
    one request with verb [w] follows; when [read] raises, the call raises the
    same exception and sends nothing more. *)
Definition read_then_write {S A B} (read : M S A) (w : verb)
    (o : outcome S B) (s : S) : Prop :=
  verbs (trace (read s)) = [GET] /\
  match res (read s) with
  | Ok _ => exists x, trace o = (trace (read s) ++ [x])%list /\ method (fst x) = w
  | Raise e => trace o = trace (read s) /\ res o = Raise e
  end.

(** [z[k]] when [z] is a dict that has the key [k]. *)
Definition field (k : string) (z : value) : option value :=
  match py_getitem z k with
  | Ok v => Some v
  | Raise _ => None
  end.

(** [z[k] == v] *)
Definition field_is (k : string) (v z : value) : bool :=
  match field k z with
  | Some x => py_eq x v
  | None => false
  end.

(** A record of a list as [list_ids] needs it: an identifier and a hashable
    title. *)
Definition list_record (z : value) : Prop :=
  (exists i, field "id" z = Some i) /\
  (exists t, field "title" z = Some t /\ hashable t = true).

(** A record of a note as [get_note_id] needs it: a reference to a task. *)
Definition note_record (z : value) : Prop :=
  exists t, field "task_id" z = Some t.

(** The lists of a folder once [list_id] has been added. *)
Definition merged (list_id : Z) (lists : list Z) : list Z :=
  if existsb (fun n => n =? list_id) lists then lists else (lists ++ [list_id])%list.

(** The last request was a DELETE and its response, validated, had status
    204 (no content). *)
Definition validated_no_content {S} (o : outcome S bool) : Prop :=
  exists req resp,
    last_exchange (trace o) = Some (req, resp) /\
    method req = DELETE /\
    _check_response resp = Ok tt /\
    status_code resp = 204.

(** The way a deletion ends: it returns [True] exactly on a validated 204;
    on the response to the DELETE it raises what the validator raises, and
    when the validator accepts the response it returns whether the status
    code is 204. *)
Definition delete_outcome {S} (o : outcome S bool) : Prop :=
  (res o = Ok true <-> validated_no_content o) /\
  (forall req resp e,
      last_exchange (trace o) = Some (req, resp) ->
      method req = DELETE ->
      _check_response resp = Raise e ->
      res o = Raise e) /\
  (forall req resp,
      last_exchange (trace o) = Some (req, resp) ->
      method req = DELETE ->
      _check_response resp = Ok tt ->
      res o = Ok (status_code resp =? 204)).

(** Keys that are [==] are the same key of a dict: [True] is [1] and [False]
    is [0]. *)
Definition key_norm (v : value) : value :=
  match v with
  | VBool b => VInt (b2z b)
  | _ => v
  end.

Definition keys_hashable (d : keydict) : Prop :=
  Forall (fun kv => hashable (fst kv) = true) d.

(** The identifier of the last of the records [zs] whose title is [k]. *)
Fixpoint last_titled (k : value) (zs : list value) : option value :=
  match zs with
  | [] => None
  | z :: zs' =>
      match last_titled k zs' with
      | Some i => Some i
      | None => if field_is "title" k z then field "id" z else None
      end
  end.

(** The folder [f] once the list [list_id] has been added to it. *)
Definition with_list (list_id : Z) (f : folder) : folder :=
  mkFolder (folder_title f) (merged list_id (folder_lists f)) (folder_rev f + 1).

(** The requests of [add_to_folder]. *)
Definition folder_get (self : Wunder) (folder_id : Z) : request :=
  mkRequest GET (folders_base ++ str_int folder_id) None None (headers_plain self).

Definition folder_patch (self : Wunder) (folder_id : Z) (lists : list Z) (revision : Z)
  : request :=
  mkRequest PATCH (folders_base ++ str_int folder_id) None
            (Some (VDict [("list_ids", VList (map VInt lists));
                          ("revision", VInt revision)]))
            (headers_payload self).

Definition ok_folder (folder_id : Z) (f : folder) : response :=
  mkResponse 200 (Some (folder_json folder_id f)).

(** A title of [n] characters. *)
Fixpoint title_of_length (n : nat) : string :=
  match n with
  | O => EmptyString
  | Datatypes.S n' => String "a" (title_of_length n')
  end.

(** ** Sample inputs *)

Definition me : Wunder := __init__ "token" "client".

Definition ok_json (v : value) : response := mkResponse 200 (Some v).

(** A folder service with one folder, number 7, that holds the lists 1 and 2. *)
Definition home : folders := [(7, mkFolder "Home" [1; 2] 4)].

(** A title one character over the limit. *)
Definition long_title : string := title_of_length 256.

(** Three lists, two of which are called "Groceries". *)
Definition three_lists : list value :=
  [VDict [("id", VInt 11); ("title", VStr "Groceries")];
   VDict [("id", VInt 12); ("title", VStr "Work")];
   VDict [("id", VInt 13); ("title", VStr "Groceries")]].

(** Task 9 of list 11, and the two notes of that list. *)
Definition task_nine : value :=
  VDict [("id", VInt 9); ("list_id", VInt 11); ("revision", VInt 2)].

Definition two_notes : list value :=
  [VDict [("id", VInt 100); ("task_id", VInt 8); ("content", VStr "milk")];
   VDict [("id", VInt 101); ("task_id", VInt 9); ("content", VStr "eggs")]].

Definition note_script : script := [ok_json task_nine; ok_json (VList two_notes)].

(** ** The methods as one family

    A call of a public method of the driver, with its arguments; an omitted
    optional argument is [VNone] (or [None] for the title of [list_ids]). *)
Inductive invocation : Type :=
| GetUser
| GetUsers (list_id : value)
| GetLists
| GetList (list_id : Z)
| UpdateList (list_id : Z) (kwargs : pydict)
| MakeList (title : string)
| MakeListPublic (list_id : Z) (revision : value)
| DeleteList (list_id : Z) (revision : value)
| GetFolders
| GetFolder (folder_id : Z)
| MakeFolder (title : string) (list_ids : list Z)
| GetFolderRevisions
| UpdateFolder (folder_id : Z) (kwargs : pydict)
| DeleteFolder (folder_id : Z) (revision : value)
| GetTasks (list_id : Z) (completed : bool)
| GetTask (task_id : Z)
| MakeTask (list_id : Z) (title : string) (kwargs : pydict)
| UpdateTask (task_id : Z) (kwargs : pydict)
| DeleteTask (task_id : Z) (revision : value)
| GetSubtasks (list_id task_id : value) (completed : bool)
| GetSubtask (subtask_id : Z)
| MakeSubtask (task_id : Z) (title : string) (completed : bool)
| UpdateSubtask (subtask_id : Z) (kwargs : pydict)
| DeleteSubtask (subtask_id : Z) (revision : value)
| GetNotes (list_id task_id : value)
| GetNote (note_id : Z)
| MakeNote (task_id : Z) (content : string)
| UpdateNote (note_id : Z) (content : string) (revision : value)
| DeleteNote (note_id : Z) (revision : value)
| ListIds (title : option string)
| ListRevision (list_id : Z)
| FolderIds
| FolderRevision (folder_id : Z)
| AddToFolder (list_id folder_id : Z)
| GetNoteId (task_id : Z).

(** What a call exchanges with the service started in state [s]. *)
Definition exchanges {S} `{Service S} (self : Wunder) (c : invocation) (s : S)
  : list exchange :=
  match c with
  | GetUser => trace (get_user self s)
  | GetUsers l => trace (get_users self l s)
  | GetLists => trace (get_lists self s)
  | GetList i => trace (get_list self i s)
  | UpdateList i kw => trace (update_list self i kw s)
  | MakeList t => trace (make_list self t s)
  | MakeListPublic i r => trace (make_list_public self i r s)
  | DeleteList i r => trace (delete_list self i r s)
  | GetFolders => trace (get_folders self s)
  | GetFolder i => trace (get_folder self i s)
  | MakeFolder t l => trace (make_folder self t l s)
  | GetFolderRevisions => trace (get_folder_revisions self s)
  | UpdateFolder i kw => trace (update_folder self i kw s)
  | DeleteFolder i r => trace (delete_folder self i r s)
  | GetTasks i c => trace (get_tasks self i c s)
  | GetTask i => trace (get_task self i s)
  | MakeTask i t kw => trace (make_task self i t kw s)
  | UpdateTask i kw => trace (update_task self i kw s)
  | DeleteTask i r => trace (delete_task self i r s)
  | GetSubtasks l t c => trace (get_subtasks self l t c s)
  | GetSubtask i => trace (get_subtask self i s)
  | MakeSubtask i t c => trace (make_subtask self i t c s)
  | UpdateSubtask i kw => trace (update_subtask self i kw s)
  | DeleteSubtask i r => trace (delete_subtask self i r s)
  | GetNotes l t => trace (get_notes self l t s)
  | GetNote i => trace (get_note self i s)
  | MakeNote i c => trace (make_note self i c s)
  | UpdateNote i c r => trace (update_note self i c r s)
  | DeleteNote i r => trace (delete_note self i r s)
  | ListIds t => trace (list_ids self t s)
  | ListRevision i => trace (list_revision self i s)
  | FolderIds => trace (folder_ids self s)
  | FolderRevision i => trace (folder_revision self i s)
  | AddToFolder l f => trace (add_to_folder self l f s)
  | GetNoteId i => trace (get_note_id self i s)
  end.

(** The verbs a method may use: the readers only read, a creation only
    posts, an update reads and patches, a deletion reads and deletes. *)
Definition allowed_verbs (c : invocation) : list verb :=
  match c with
  | MakeList _ | MakeFolder _ _ | MakeTask _ _ _ | MakeSubtask _ _ _ | MakeNote _ _ =>
      [POST]
  | UpdateList _ _ | UpdateFolder _ _ | UpdateTask _ _ | UpdateSubtask _ _
  | UpdateNote _ _ _ | AddToFolder _ _ =>
      [GET; PATCH]
  | MakeListPublic _ _ => [PATCH]
  | DeleteList _ _ | DeleteFolder _ _ | DeleteTask _ _ | DeleteSubtask _ _
  | DeleteNote _ _ =>
      [GET; DELETE]
  | _ => [GET]
  end.

(** The largest number of requests a method sends. *)
Definition most_requests (c : invocation) : nat :=
  match c with
  | AddToFolder _ _ => 3
  | UpdateList _ _ | UpdateFolder _ _ | UpdateTask _ _ | UpdateSubtask _ _
  | UpdateNote _ _ _
  | DeleteList _ _ | DeleteFolder _ _ | DeleteTask _ _ | DeleteSubtask _ _
  | DeleteNote _ _
  | GetNoteId _ => 2
  | _ => 1
  end.

(** The headers of a request are those of the object [self]: the ones with
    the content type exactly when the request has data. *)
Definition well_headed (self : Wunder) (req : request) : Prop :=
  match data req with
  | Some _ => headers req = headers_payload self
  | None => headers req = headers_plain self
  end.

(** Every exchange of every run of [m] satisfies [P]. *)
Definition sends_only {S A} (P : exchange -> Prop) (m : M S A) : Prop :=
  forall s, Forall P (trace (m s)).

(** No run of [m] sends more than [n] requests. *)
Definition sends_at_most {S A} (n : nat) (m : M S A) : Prop :=
  forall s, (List.length (trace (m s)) <= n)%nat.

(** The methods that are one read: the request is sent, the response is
    validated and its decoded body is returned. *)
Definition plain_read {S} `{Service S} (self : Wunder) (c : invocation)
  : option (M S value) :=
  match c with
  | GetUser => Some (get_user self)
  | GetUsers l => Some (get_users self l)
  | GetLists => Some (get_lists self)
  | GetList i => Some (get_list self i)
  | GetFolders => Some (get_folders self)
  | GetFolder i => Some (get_folder self i)
  | GetFolderRevisions => Some (get_folder_revisions self)
  | GetTasks i c => Some (get_tasks self i c)
  | GetTask i => Some (get_task self i)
  | GetSubtask i => Some (get_subtask self i)
  | GetNote i => Some (get_note self i)
  | _ => None
  end.

(** A body the validator lets through: a list, or a dict without an
    ['error'] entry. *)
Definition error_free (v : value) : Prop :=
  (exists l, v = VList l) \/ (exists d, v = VDict d /\ dict_get "error" d = None).

(** The three requests the methods build. *)
Definition get_request (self : Wunder) (u : string) : request :=
  mkRequest GET u None None (headers_plain self).

Definition patch_request (self : Wunder) (u : string) (payload : pydict) : request :=
  mkRequest PATCH u None (Some (VDict payload)) (headers_payload self).

Definition delete_request (self : Wunder) (u : string) (revision : param) : request :=
  mkRequest DELETE u (Some [("revision", revision)]) None (headers_plain self).

(** The lists [add_to_folder] writes back when it has read [lists]. *)
Definition appended (list_id : Z) (lists : list value) : list value :=
  if existsb (fun e => py_eq e (VInt list_id)) lists
  then lists
  else (lists ++ [VInt list_id])%list.

(** A title of exactly the longest length allowed. *)
Definition longest_title : string := title_of_length 255.

(** Two folders called "Home", and one called "Work". *)
Definition three_folders : list value :=
  [VDict [("id", VInt 7); ("title", VStr "Home")];
   VDict [("id", VInt 8); ("title", VStr "Work")];
   VDict [("id", VInt 9); ("title", VStr "Home")]].

(** A list without an identifier, after a well-formed one. *)
Definition lists_with_a_gap : list value :=
  [VDict [("id", VInt 11); ("title", VStr "Groceries")];
   VDict [("title", VStr "Work")]].

(** A task that belongs to no list. *)
Definition loose_task : value :=
  VDict [("id", VInt 9); ("list_id", VNone); ("revision", VInt 2)].

(** ** Running the monad *)

Section Running.
Context {S : Type} `{Service S}.

Lemma bind_ok A B (m : M S A) (k : A -> M S B) (s : S) (a : A) :
  res (m s) = Ok a ->
  bind m k s = mkOutcome (res (k a (srv (m s)))) (srv (k a (srv (m s))))
                         (trace (m s) ++ trace (k a (srv (m s)))).
Proof. intros E. unfold bind. rewrite E. reflexivity. Qed.

Lemma bind_raise A B (m : M S A) (k : A -> M S B) (s : S) (e : exc) :
  res (m s) = Raise e ->
  bind m k s = mkOutcome (Raise e) (srv (m s)) (trace (m s)).
Proof. intros E. unfold bind. rewrite E. reflexivity. Qed.

Lemma bind_ret A B (a : A) (k : A -> M S B) (s : S) :
  bind (ret a) k s = k a s.
Proof. unfold bind, ret. simpl. destruct (k a s); reflexivity. Qed.

Lemma bind_raise_now A B (e : exc) (k : A -> M S B) (s : S) :
  bind (raise e) k s = mkOutcome (Raise e) s [].
Proof. reflexivity. Qed.

Lemma lift_run A (r : result A) (s : S) :
  lift r s = mkOutcome r s [].
Proof. destruct r; reflexivity. Qed.

Lemma call_trace (req : request) (s : S) :
  trace (call req s) = [(req, fst (serve s req))].
Proof.
  unfold call, bind, send. destruct (serve s req) as [resp s']. simpl.
  destruct (_check_response resp) as [[]|e]; simpl; [|reflexivity].
  destruct (json resp); reflexivity.
Qed.

Lemma call_srv (req : request) (s : S) :
  srv (call req s) = snd (serve s req).
Proof.
  unfold call, bind, send. destruct (serve s req) as [resp s']. simpl.
  destruct (_check_response resp) as [[]|e]; simpl; [|reflexivity].
  destruct (json resp); reflexivity.
Qed.

Lemma call_res (req : request) (s : S) :
  res (call req s) =
  (let? _ := _check_response (fst (serve s req)) in json (fst (serve s req))).
Proof.
  unfold call, bind, send. destruct (serve s req) as [resp s']. simpl.
  destruct (_check_response resp) as [[]|e]; simpl; [|reflexivity].
  destruct (json resp); reflexivity.
Qed.

Lemma call_verbs (req : request) (s : S) :
  verbs (trace (call req s)) = [method req].
Proof. rewrite call_trace. reflexivity. Qed.

Lemma _delete_trace (self : Wunder) (u : string) (kw : kwargs_t) (s : S) :
  trace (_delete self u kw s) =
  [(prepare self DELETE u kw, fst (serve s (prepare self DELETE u kw)))].
Proof.
  unfold _delete, bind, send. destruct (serve s _) as [resp s']. simpl.
  destruct (_check_response resp) as [[]|e]; reflexivity.
Qed.

Lemma _delete_res (self : Wunder) (u : string) (kw : kwargs_t) (s : S) :
  res (_delete self u kw s) =
  (let? _ := _check_response (fst (serve s (prepare self DELETE u kw))) in
   Ok (status_code (fst (serve s (prepare self DELETE u kw))) =? 204)).
Proof.
  unfold _delete, bind, send. destruct (serve s _) as [resp s']. simpl.
  destruct (_check_response resp) as [[]|e]; reflexivity.
Qed.

Lemma _get_call (self : Wunder) (u : string) (kw : kwargs_t) :
  _get self u kw = call (prepare self GET u kw).
Proof. reflexivity. Qed.

Lemma _post_call (self : Wunder) (u : string) (kw : kwargs_t) :
  _post self u kw = call (prepare self POST u kw).
Proof. reflexivity. Qed.

Lemma _patch_call (self : Wunder) (u : string) (payload : value) :
  _patch self u payload =
  call (mkRequest PATCH u None (Some payload) (headers_payload self)).
Proof. reflexivity. Qed.

Lemma prepare_method (self : Wunder) (m : verb) (u : string) (kw : kwargs_t) :
  method (prepare self m u kw) = m.
Proof. unfold prepare. destruct (kw_payload kw); reflexivity. Qed.

End Running.

(** ** The response validator *)

(** C1 (amended).  [_check_response] classifies a response whose body
    decodes: a list is accepted whatever it holds; a dict whose ['error']
    entry contains ['revision_conflict'] raises the revision error
    (StaleRevision); a dict with any other ['error'] entry is never accepted:
    the call raises, and when the entry has a ['message'] what it raises is
    the [ValueError] that carries that message unchanged (RemoteError). *)
Theorem check_response_classifies (r : response) :
  (forall l, json r = Ok (VList l) -> _check_response r = Ok tt) /\
  (forall d e,
      json r = Ok (VDict d) ->
      dict_get "error" d = Some e ->
      py_contains (VStr "revision_conflict") e = Ok true ->
      _check_response r = Raise revision_incorrect) /\
  (forall d e m,
      json r = Ok (VDict d) ->
      dict_get "error" d = Some e ->
      py_contains (VStr "revision_conflict") e = Ok false ->
      py_getitem e "message" = Ok m ->
      _check_response r = Raise (ValueError m)) /\
  (forall d e,
      json r = Ok (VDict d) ->
      dict_get "error" d = Some e ->
      exists x, _check_response r = Raise x).
Proof.
  unfold _check_response. split; [|split; [|split]].
  - intros l ->. reflexivity.
  - intros d e -> E C. simpl. unfold dict_has. rewrite E. simpl.
    rewrite C. reflexivity.
  - intros d e m -> E C G. simpl. unfold dict_has. rewrite E. simpl.
    rewrite C. simpl. rewrite G. reflexivity.
  - intros d e -> E. simpl. unfold dict_has. rewrite E. simpl.
    destruct (py_contains (VStr "revision_conflict") e) as [[|]|x]; simpl;
      try (eexists; reflexivity).
    destruct (py_getitem e "message"); eexists; reflexivity.
Qed.

(** A dict without an ['error'] entry is accepted as well. *)
Lemma check_response_no_error (r : response) (d : pydict) :
  json r = Ok (VDict d) -> dict_get "error" d = None -> _check_response r = Ok tt.
Proof.
  intros J E. unfold _check_response. rewrite J. simpl. unfold dict_has.
  rewrite E. reflexivity.
Qed.

(** An error entry that is a dict with neither a ['revision_conflict'] nor a
    ['message'] key escapes the classification: the lookup of the message
    raises [KeyError]. *)
Lemma check_response_no_message (r : response) (d e : pydict) :
  json r = Ok (VDict d) ->
  dict_get "error" d = Some (VDict e) ->
  dict_get "revision_conflict" e = None ->
  dict_get "message" e = None ->
  _check_response r = Raise (KeyError (VStr "message")).
Proof.
  intros J E C G. unfold _check_response. rewrite J. simpl. unfold dict_has.
  rewrite E. simpl. unfold dict_has. rewrite C. simpl. rewrite G. reflexivity.
Qed.

Lemma check_response_classifies_witness :
  _check_response (mkResponse 200 (Some (VList [conflict_json]))) = Ok tt /\
  _check_response conflict = Raise revision_incorrect /\
  _check_response not_found =
    Raise (ValueError (VStr "The resource you requested could not be found.")).
Proof.
  split; [|split].
  - apply (proj1 (check_response_classifies _) [conflict_json]). reflexivity.
  - eapply (proj1 (proj2 (check_response_classifies conflict))); reflexivity.
  - eapply (proj1 (proj2 (proj2 (check_response_classifies not_found)))); reflexivity.
Defined.

(** C1 as stated fails: an error of another kind that has no ['message'], or
    that is not a dict, does not raise the [ValueError] of a RemoteError: the
    lookup of the message raises [KeyError], or [TypeError]. *)
Lemma check_response_classifies_counterexample :
  _check_response
    (mkResponse 404 (Some (VDict [("error", VDict [("type", VStr "not_found")])]))) =
    Raise (KeyError (VStr "message")) /\
  _check_response (mkResponse 500 (Some (VDict [("error", VStr "oops")]))) =
    Raise (TypeError "string indices must be integers").
Proof. split; reflexivity. Qed.

(** ** Requests sent by the methods *)

Section Properties.
Context {S : Type} `{Service S}.
Variable self : Wunder.

Lemma check_title_long (title : string) :
  (255 < String.length title)%nat -> _check_title (VStr title) = Raise title_too_long.
Proof.
  intros L. unfold _check_title. simpl.
  apply Nat.ltb_lt in L. rewrite L. reflexivity.
Qed.

Lemma check_kwargs_title_long (title : string) (kwargs : pydict) (s : S) :
  (255 < String.length title)%nat ->
  dict_get "title" kwargs = Some (VStr title) ->
  check_kwargs_title kwargs s = mkOutcome (Raise title_too_long) s [].
Proof.
  intros L E. unfold check_kwargs_title. rewrite E.
  rewrite (check_title_long title L). reflexivity.
Qed.

Lemma check_kwargs_title_ok (kwargs : pydict) (s : S) :
  title_ok kwargs -> check_kwargs_title kwargs s = mkOutcome (Ok tt) s [].
Proof.
  unfold title_ok, check_kwargs_title. destruct (dict_get "title" kwargs).
  - intros ->. reflexivity.
  - reflexivity.
Qed.

(** C3.  With a title of more than 255 characters, the four creations and
    the four updates that accept a title raise the title error
    (InvalidArgument) and send no request. *)
Theorem long_title_sends_nothing
    (title : string) (s : S) (list_id folder_id task_id subtask_id : Z)
    (list_ids : list Z) (extra kwargs : pydict) (completed : bool) :
  (255 < String.length title)%nat ->
  dict_get "title" kwargs = Some (VStr title) ->
  fails_before_sending (make_list self title s) s title_too_long /\
  fails_before_sending (make_folder self title list_ids s) s title_too_long /\
  fails_before_sending (make_task self list_id title extra s) s title_too_long /\
  fails_before_sending (make_subtask self task_id title completed s) s title_too_long /\
  fails_before_sending (update_list self list_id kwargs s) s title_too_long /\
  fails_before_sending (update_folder self folder_id kwargs s) s title_too_long /\
  fails_before_sending (update_task self task_id kwargs s) s title_too_long /\
  fails_before_sending (update_subtask self subtask_id kwargs s) s title_too_long.
Proof.
  intros L E.
  pose proof (check_title_long title L) as T.
  pose proof (check_kwargs_title_long kwargs s L E) as K.
  unfold fails_before_sending, make_list, make_folder, make_task, make_subtask,
    update_list, update_folder, update_task, update_subtask.
  repeat split;
    solve [ unfold bind; rewrite T; reflexivity
          | unfold bind; rewrite K; reflexivity ].
Qed.

(** C5.  [get_subtasks] and [get_notes] called with both [list_id] and
    [task_id], or with neither, raise their [TypeError] (InvalidArgument) and
    send nothing; called with exactly one of them they send one GET whose
    query carries that argument. *)
Theorem scoped_reads (list_id task_id : value) (completed : bool) (s : S) :
  (is_none list_id = is_none task_id ->
   fails_before_sending (get_subtasks self list_id task_id completed s) s
                        (exactly_one "get_subtasks") /\
   fails_before_sending (get_notes self list_id task_id s) s
                        (exactly_one "get_notes")) /\
  (is_none list_id <> is_none task_id ->
   requests (trace (get_subtasks self list_id task_id completed s)) =
     [mkRequest GET "http://a.wunderlist.com/api/v1/subtasks"
        (Some (scope_param list_id task_id ::
               (if completed then [("completed", PVal (VBool true))] else [])))
        None (headers_plain self)] /\
   requests (trace (get_notes self list_id task_id s)) =
     [mkRequest GET "http://a.wunderlist.com/api/v1/notes"
        (Some [scope_param list_id task_id]) None (headers_plain self)]).
Proof.
  unfold get_subtasks, get_notes, scope_param, fails_before_sending.
  split; intros E.
  - destruct (is_none list_id), (is_none task_id); try discriminate;
      split; repeat split; reflexivity.
  - destruct (is_none list_id), (is_none task_id); try congruence; simpl;
      rewrite !_get_call, !call_trace; destruct completed; split; reflexivity.
Qed.

End Properties.

(** ** Revisions and deletions *)

Section Revisions.
Context {S : Type} `{Service S}.
Variable self : Wunder.

Lemma bind_pure A B (m : M S A) (k : A -> M S B) (s : S) (a : A) :
  m s = mkOutcome (Ok a) s [] -> bind m k s = k a s.
Proof. intros E. unfold bind. rewrite E. simpl. destruct (k a s); reflexivity. Qed.

Lemma bind_assoc A B C (m : M S A) (f : A -> M S B) (g : B -> M S C) (s : S) :
  bind (bind m f) g s = bind m (fun x => bind (f x) g) s.
Proof.
  unfold bind. destruct (m s) as [[a|e] s1 t1]; simpl; [|reflexivity].
  destruct (f a s1) as [[b|e] s2 t2]; simpl; [|reflexivity].
  destruct (g b s2) as [r s3 t3]; simpl. rewrite app_assoc. reflexivity.
Qed.

Lemma bind_ext A B (m : M S A) (k k' : A -> M S B) (s : S) :
  (forall a s', k a s' = k' a s') -> bind m k s = bind m k' s.
Proof.
  intros E. unfold bind. destruct (m s) as [[a|e] s1 t1]; simpl; [|reflexivity].
  rewrite E. reflexivity.
Qed.

(** The two shapes in which the methods fetch a revision before they use it. *)
Lemma fetch_then_use A B C (rd : M S A) (f : A -> B) (k : B -> M S C) (s : S) :
  bind (bind rd (fun r => ret (f r))) k s = bind rd (fun r => k (f r)) s.
Proof.
  rewrite bind_assoc. apply bind_ext. intros a s'. apply bind_ret.
Qed.

Lemma get_fetch_then_use A B C D (g : M S A) (h : A -> result B) (f : B -> C)
    (k : C -> M S D) (s : S) :
  bind (bind g (fun t => bind (lift (h t)) (fun r => ret (f r)))) k s =
  bind (bind g (fun t => lift (h t))) (fun r => k (f r)) s.
Proof.
  rewrite !bind_assoc. apply bind_ext. intros a s'.
  rewrite bind_assoc. apply bind_ext. intros b s''. apply bind_ret.
Qed.

Lemma bind_ret_r_trace A B (m : M S A) (f : A -> B) (s : S) :
  trace (bind m (fun x => ret (f x)) s) = trace (m s).
Proof.
  unfold bind. destruct (m s) as [[a|e] s1 t1]; simpl; [|reflexivity].
  apply app_nil_r.
Qed.

Lemma read_trace A (req : request) (f : value -> result A) (s : S) :
  trace (bind (call req) (fun t => lift (f t)) s) = [(req, fst (serve s req))].
Proof.
  unfold bind. destruct (res (call req s)) eqn:E; simpl.
  - rewrite lift_run, call_trace. reflexivity.
  - apply call_trace.
Qed.

Lemma write_only_call (req : request) (s : S) :
  write_only (method req) (call req s).
Proof. eexists. rewrite call_trace. split; reflexivity. Qed.

Lemma write_only_delete (u : string) (kw : kwargs_t) (s : S) :
  write_only DELETE (_delete self u kw s).
Proof.
  eexists. rewrite _delete_trace. split; [reflexivity|]. apply prepare_method.
Qed.

Lemma read_then_write_bind A B (read : M S A) (k : A -> M S B) (w : verb) (s : S) :
  verbs (trace (read s)) = [GET] ->
  (forall a s', write_only w (k a s')) ->
  read_then_write read w (bind read k s) s.
Proof.
  intros V W. split; [exact V|].
  destruct (res (read s)) as [a|e] eqn:E.
  - rewrite (bind_ok _ _ _ E). simpl.
    destruct (W a (srv (read s))) as [x [T Mx]]. exists x. rewrite T. auto.
  - rewrite (bind_raise _ _ _ E). simpl. auto.
Qed.

Lemma read_verbs A (u : string) (f : value -> result A) (s : S) :
  verbs (trace (bind (_get self u no_kwargs) (fun t => lift (f t)) s)) = [GET].
Proof. rewrite _get_call, read_trace. reflexivity. Qed.

(** C4 (amended).  Take an update or a deletion whose title, if it has one,
    passes [_check_title].  With an explicit revision it sends one request,
    the write.  With the revision left out it first sends a read (a GET of the
    resource); when the read returns a revision the write follows, so that two
    requests are sent, the read and then the write; when the read raises, the
    call raises the same exception and the read is its only request. *)
Theorem revision_resolution (s : S) (id : Z) (kwargs : pydict) (content : string)
    (revision : value) :
  title_ok kwargs ->
  (dict_has "revision" kwargs = true ->
   write_only PATCH (update_list self id kwargs s) /\
   write_only PATCH (update_folder self id kwargs s) /\
   write_only PATCH (update_task self id kwargs s) /\
   write_only PATCH (update_subtask self id kwargs s)) /\
  (dict_has "revision" kwargs = false ->
   read_then_write (list_revision self id) PATCH (update_list self id kwargs s) s /\
   read_then_write (folder_revision self id) PATCH (update_folder self id kwargs s) s /\
   read_then_write (t <- get_task self id ;; lift (py_getitem t "revision")) PATCH
                   (update_task self id kwargs s) s /\
   read_then_write (t <- get_subtask self id ;; lift (py_getitem t "revision")) PATCH
                   (update_subtask self id kwargs s) s) /\
  (is_none revision = false ->
   write_only PATCH (update_note self id content revision s) /\
   write_only DELETE (delete_list self id revision s) /\
   write_only DELETE (delete_folder self id revision s) /\
   write_only DELETE (delete_task self id revision s) /\
   write_only DELETE (delete_subtask self id revision s) /\
   write_only DELETE (delete_note self id revision s)) /\
  (is_none revision = true ->
   read_then_write (n <- get_note self id ;; lift (py_getitem n "revision")) PATCH
                   (update_note self id content revision s) s /\
   read_then_write (list_revision self id) DELETE (delete_list self id revision s) s /\
   read_then_write (folder_revision self id) DELETE (delete_folder self id revision s) s /\
   read_then_write (t <- get_task self id ;; lift (py_getitem t "revision")) DELETE
                   (delete_task self id revision s) s /\
   read_then_write (t <- get_subtask self id ;; lift (py_getitem t "revision")) DELETE
                   (delete_subtask self id revision s) s /\
   read_then_write (n <- get_note self id ;; lift (py_getitem n "revision")) DELETE
                   (delete_note self id revision s) s).
Proof.
  intros T.
  pose proof (check_kwargs_title_ok kwargs s T) as K.
  split; [|split; [|split]]; intros R;
    repeat match goal with |- _ /\ _ => split end;
    unfold update_list, update_folder, update_task, update_subtask, update_note,
      delete_list, delete_folder, delete_task, delete_subtask, delete_note,
      list_revision, folder_revision, get_list, get_folder, get_task,
      get_subtask, get_note;
    rewrite ?(@bind_pure _ _ _ _ _ _ K), ?R; cbv [negb];
    rewrite ?bind_ret, ?fetch_then_use, ?get_fetch_then_use;
    first [ rewrite _patch_call; apply write_only_call
          | apply write_only_delete
          | apply read_then_write_bind;
            [ apply read_verbs
            | intros a s'; first [ rewrite _patch_call; apply write_only_call
                                 | apply write_only_delete ] ] ].
Qed.

Lemma last_exchange_snoc (t : list exchange) (x : exchange) :
  last_exchange (t ++ [x]) = Some x.
Proof. unfold last_exchange. rewrite rev_app_distr. reflexivity. Qed.

Lemma last_exchange_in (t : list exchange) (x : exchange) :
  last_exchange t = Some x -> In x t.
Proof.
  unfold last_exchange. destruct (rev t) as [|y r] eqn:E; [discriminate|].
  intros [= ->]. apply in_rev. rewrite E. left. reflexivity.
Qed.

Lemma delete_after A (m : M S A) (kw : A -> kwargs_t) (u : string) (s : S) :
  (forall x, In x (trace (m s)) -> method (fst x) = GET) ->
  delete_outcome (bind m (fun a => _delete self u (kw a)) s).
Proof.
  intros G. unfold delete_outcome, validated_no_content.
  destruct (res (m s)) as [a|e] eqn:E.
  - rewrite (bind_ok _ _ _ E). simpl.
    rewrite _delete_trace, _delete_res, last_exchange_snoc.
    set (req := prepare self DELETE u (kw a)).
    set (resp := fst (serve (srv (m s)) req)).
    split; [split|split].
    + intros R. exists req, resp. split; [reflexivity|].
      split; [apply prepare_method|].
      destruct (_check_response resp) as [[]|e]; [|discriminate].
      simpl in R. injection R as R. apply Z.eqb_eq in R. auto.
    + intros (req' & resp' & L & _ & C & St). injection L as <- <-.
      rewrite C. simpl. rewrite St. reflexivity.
    + intros req' resp' e L _ C. injection L as <- <-. rewrite C. reflexivity.
    + intros req' resp' L _ C. injection L as <- <-. rewrite C. reflexivity.
  - rewrite (bind_raise _ _ _ E). simpl. split; [split|split].
    + discriminate.
    + intros (req & resp & L & D & _). apply last_exchange_in, G in L.
      simpl in L. congruence.
    + intros req resp e' L D _. apply last_exchange_in, G in L.
      simpl in L. congruence.
    + intros req resp L D _. apply last_exchange_in, G in L.
      simpl in L. congruence.
Qed.

Lemma read_only_gets A (u : string) (f : value -> result A) (s : S) (x : exchange) :
  In x (trace (bind (_get self u no_kwargs) (fun t => lift (f t)) s)) ->
  method (fst x) = GET.
Proof.
  rewrite _get_call, read_trace. intros [<-|[]]. reflexivity.
Qed.

(** The five deletions end the same way: the response to the DELETE goes
    through [_check_response] like every other response; the method returns
    [True] exactly when that response is accepted and its status code is 204,
    and raises what the validator raises otherwise. *)
Theorem delete_signals_success (s : S) (id : Z) (revision : value) :
  delete_outcome (delete_list self id revision s) /\
  delete_outcome (delete_folder self id revision s) /\
  delete_outcome (delete_task self id revision s) /\
  delete_outcome (delete_subtask self id revision s) /\
  delete_outcome (delete_note self id revision s).
Proof.
  unfold delete_list, delete_folder, delete_task, delete_subtask, delete_note,
    list_revision, folder_revision, get_list, get_folder, get_task, get_subtask,
    get_note.
  repeat match goal with |- _ /\ _ => split end;
    apply delete_after; intros x; destruct (is_none revision);
    try (intros []); try rewrite bind_ret_r_trace; apply read_only_gets.
Qed.

Lemma check_response_without_body (resp : response) :
  body resp = None -> _check_response resp = Raise JSONDecodeError.
Proof. intros B. unfold _check_response, json. rewrite B. reflexivity. Qed.

(** C2.  The claim does not hold of the code.  A response with status 204 (no
    content) has no body to decode; [_delete] hands it to [_check_response]
    before it looks at the status code, the validator's [response.json()]
    raises, and so does each of the five deletions, whatever the status code:
    none of them returns [True] on such a response. *)
Theorem delete_no_content_raises (s : S) (id : Z) (revision : value)
    (rq : request) (resp : response) :
  method rq = DELETE ->
  body resp = None ->
  (last_exchange (trace (delete_list self id revision s)) = Some (rq, resp) ->
   res (delete_list self id revision s) = Raise JSONDecodeError) /\
  (last_exchange (trace (delete_folder self id revision s)) = Some (rq, resp) ->
   res (delete_folder self id revision s) = Raise JSONDecodeError) /\
  (last_exchange (trace (delete_task self id revision s)) = Some (rq, resp) ->
   res (delete_task self id revision s) = Raise JSONDecodeError) /\
  (last_exchange (trace (delete_subtask self id revision s)) = Some (rq, resp) ->
   res (delete_subtask self id revision s) = Raise JSONDecodeError) /\
  (last_exchange (trace (delete_note self id revision s)) = Some (rq, resp) ->
   res (delete_note self id revision s) = Raise JSONDecodeError).
Proof.
  intros D B.
  pose proof (check_response_without_body resp B) as C.
  destruct (delete_signals_success s id revision)
    as ((_ & L & _) & (_ & F & _) & (_ & T & _) & (_ & U & _) & (_ & N & _)).
  repeat split; intros E.
  - exact (L rq resp _ E D C).
  - exact (F rq resp _ E D C).
  - exact (T rq resp _ E D C).
  - exact (U rq resp _ E D C).
  - exact (N rq resp _ E D C).
Qed.
End Revisions.

(** ** Convenience methods *)

Section Convenience.
Context {S : Type} `{Service S}.
Variable self : Wunder.



(** *** [get_note_id] *)

Lemma note_loop_found (task_id : Z) (pre post : list value) (n : value) :
  Forall note_record pre ->
  Forall (fun z => field_is "task_id" (VInt task_id) z = false) pre ->
  field_is "task_id" (VInt task_id) n = true ->
  get_note_id_loop task_id (pre ++ n :: post) = py_getitem n "id".
Proof.
  induction pre as [|z pre IH]; simpl; intros R F M.
  - unfold field_is, field in M. destruct (py_getitem n "task_id"); [|discriminate].
    simpl. rewrite M. reflexivity.
  - inversion R as [|? ? [t Rz] R']; subst. inversion F as [|? ? Fz F']; subst.
    unfold field_is in Fz. rewrite Rz in Fz. unfold field in Rz.
    destruct (py_getitem z "task_id"); [|discriminate]. injection Rz as ->.
    simpl. rewrite Fz. apply IH; assumption.
Qed.

Lemma note_loop_missing (task_id : Z) (notes : list value) :
  Forall note_record notes ->
  Forall (fun z => field_is "task_id" (VInt task_id) z = false) notes ->
  get_note_id_loop task_id notes =
  Raise (KeyError (VStr "No note_id found for the given task_id.")).
Proof.
  induction notes as [|z notes IH]; simpl; intros R F; [reflexivity|].
  inversion R as [|? ? [t Rz] R']; subst. inversion F as [|? ? Fz F']; subst.
  unfold field_is in Fz. rewrite Rz in Fz. unfold field in Rz.
  destruct (py_getitem z "task_id"); [|discriminate]. injection Rz as ->.
  simpl. rewrite Fz. apply IH; assumption.
Qed.

Lemma get_notes_by_list (l : value) (s : S) :
  is_none l = false ->
  get_notes self l VNone s =
  call (prepare self GET "http://a.wunderlist.com/api/v1/notes"
                (with_params [("list_id", PVal l)])) s.
Proof.
  intros N. unfold get_notes. rewrite N. simpl. rewrite bind_ret. reflexivity.
Qed.

(** C9.  [get_note_id] reads the task, then the notes of the list the task
    belongs to, and scans them in order: it returns the ['id'] of the first
    note whose ['task_id'] equals the argument, and raises [KeyError]
    (NotFound) when no note does. *)
Theorem get_note_id_scans
    (s : S) (task_id : Z) (task l nv : value) (notes : list value) :
  res (get_task self task_id s) = Ok task ->
  py_getitem task "list_id" = Ok l ->
  is_none l = false ->
  res (get_notes self l VNone (srv (get_task self task_id s))) = Ok nv ->
  py_iter nv = Ok notes ->
  Forall note_record notes ->
  requests (trace (get_note_id self task_id s)) =
    [prepare self GET ("http://a.wunderlist.com/api/v1/tasks/" ++ str_int task_id) no_kwargs;
     prepare self GET "http://a.wunderlist.com/api/v1/notes"
             (with_params [("list_id", PVal l)])] /\
  (forall pre n post,
      notes = (pre ++ n :: post)%list ->
      Forall (fun z => field_is "task_id" (VInt task_id) z = false) pre ->
      field_is "task_id" (VInt task_id) n = true ->
      res (get_note_id self task_id s) = py_getitem n "id") /\
  (Forall (fun z => field_is "task_id" (VInt task_id) z = false) notes ->
   res (get_note_id self task_id s) =
   Raise (KeyError (VStr "No note_id found for the given task_id."))).
Proof.
  intros T L N G I R.
  assert (E : get_note_id self task_id s =
              mkOutcome (get_note_id_loop task_id notes)
                        (srv (get_notes self l VNone (srv (get_task self task_id s))))
                        (trace (get_task self task_id s) ++
                         trace (get_notes self l VNone (srv (get_task self task_id s))))).
  { unfold get_note_id. rewrite (bind_ok _ _ _ T).
    unfold bind at 1. rewrite lift_run, L. simpl.
    rewrite (bind_ok _ _ _ G). simpl.
    unfold bind. rewrite lift_run, I. simpl. rewrite lift_run. simpl.
    rewrite !app_nil_r. reflexivity. }
  rewrite E. simpl. split; [|split].
  - rewrite (get_notes_by_list l _ N). unfold get_task. rewrite _get_call, !call_trace.
    reflexivity.
  - intros pre n post -> F M. apply note_loop_found; [|assumption|assumption].
    apply Forall_app in R. apply R.
  - intros F. apply note_loop_missing; assumption.
Qed.

End Convenience.

(** *** [list_ids] *)

Section ListIds.
Context {S : Type} `{Service S}.
Variable self : Wunder.

Lemma py_eq_norm (a b : value) :
  hashable a = true -> hashable b = true ->
  (py_eq a b = true <-> key_norm a = key_norm b).
Proof.
  destruct a as [|x|m|t| |], b as [|y|n|u| |]; simpl; try discriminate; intros _ _;
    try (split; [discriminate | intros [=]]); try (split; reflexivity).
  - destruct x, y; simpl; split; congruence.
  - rewrite Z.eqb_eq. split; congruence.
  - rewrite Z.eqb_eq. split; congruence.
  - rewrite Z.eqb_eq. split; congruence.
  - rewrite String.eqb_eq. split; congruence.
Qed.

Lemma py_eq_same_key (a b c : value) :
  hashable a = true -> hashable b = true -> hashable c = true ->
  py_eq a b = true -> py_eq a c = py_eq b c.
Proof.
  intros Ha Hb Hc E. apply py_eq_norm in E; try assumption.
  destruct (py_eq a c) eqn:A, (py_eq b c) eqn:B; try reflexivity.
  - apply py_eq_norm in A; try assumption.
    assert (X : py_eq b c = true) by (apply py_eq_norm; congruence). congruence.
  - apply py_eq_norm in B; try assumption.
    assert (X : py_eq a c = true) by (apply py_eq_norm; congruence). congruence.
Qed.

Lemma kd_set_hashable (k v : value) (d : keydict) :
  hashable k = true -> keys_hashable d -> keys_hashable (kd_set k v d).
Proof.
  intros Hk. unfold keys_hashable. induction d as [|[k0 v0] d IH]; simpl; intros F.
  - constructor; [exact Hk | constructor].
  - inversion F; subst. destruct (py_eq k0 k); constructor; auto.
Qed.

Lemma kd_get_set (k v k' : value) (d : keydict) :
  hashable k = true -> hashable k' = true -> keys_hashable d ->
  kd_get k' (kd_set k v d) = if py_eq k k' then Some v else kd_get k' d.
Proof.
  intros Hk Hk'. unfold keys_hashable.
  induction d as [|[k0 v0] d IH]; simpl; intros F.
  - reflexivity.
  - inversion F as [|? ? H0 F']; subst. simpl in H0.
    destruct (py_eq k0 k) eqn:E; simpl.
    + rewrite (@py_eq_same_key k0 k k' H0 Hk Hk' E).
      destruct (py_eq k k'); reflexivity.
    + rewrite (IH F'). destruct (py_eq k0 k') eqn:E'; [|reflexivity].
      destruct (py_eq k k') eqn:E''; [|reflexivity].
      apply py_eq_norm in E'; try assumption. apply py_eq_norm in E''; try assumption.
      assert (X : py_eq k0 k = true) by (apply py_eq_norm; congruence). congruence.
Qed.

Lemma list_ids_loop_spec (zs : list value) (acc : keydict) :
  Forall list_record zs -> keys_hashable acc ->
  exists d,
    list_ids_loop zs acc = Ok d /\ keys_hashable d /\
    forall k, hashable k = true ->
      kd_get k d = match last_titled k zs with
                   | Some i => Some i
                   | None => kd_get k acc
                   end.
Proof.
  revert acc. induction zs as [|z zs IH]; simpl; intros acc R A.
  - exists acc. auto.
  - inversion R as [|? ? [[i Hi] [t [Ht Hh]]] R']; subst.
    unfold field in Hi, Ht.
    destruct (py_getitem z "id") as [i0|] eqn:Ei; [|discriminate]. injection Hi as ->.
    destruct (py_getitem z "title") as [t0|] eqn:Et; [|discriminate]. injection Ht as ->.
    simpl. rewrite Hh.
    destruct (IH (kd_set t i acc) R' (@kd_set_hashable t i acc Hh A)) as (d & L & Hd & G).
    exists d. split; [exact L|]. split; [exact Hd|].
    intros k Hk. rewrite (G k Hk).
    destruct (last_titled k zs); [reflexivity|].
    rewrite (@kd_get_set t i k acc Hh Hk A). unfold field_is, field. rewrite Et, Ei.
    destruct (py_eq t k); reflexivity.
Qed.

Lemma last_titled_none (k : value) (zs : list value) :
  Forall (fun y => field_is "title" k y = false) zs -> last_titled k zs = None.
Proof.
  induction zs as [|z zs IH]; simpl; intros F; [reflexivity|].
  inversion F as [|? ? Fz F']; subst. rewrite (IH F'), Fz. reflexivity.
Qed.

Lemma last_titled_last (k : value) (pre post : list value) (z i : value) :
  field_is "title" k z = true ->
  Forall (fun y => field_is "title" k y = false) post ->
  field "id" z = Some i ->
  last_titled k (pre ++ z :: post) = Some i.
Proof.
  intros M F Hi. induction pre as [|y pre IH]; simpl.
  - rewrite (@last_titled_none k post F), M. exact Hi.
  - rewrite IH. reflexivity.
Qed.

Lemma list_ids_run (title : option string) (s : S) (lists : value) (zs : list value)
    (d : keydict) :
  res (get_lists self s) = Ok lists ->
  py_iter lists = Ok zs ->
  list_ids_loop zs [] = Ok d ->
  list_ids self title s =
  mkOutcome (match title with
             | Some t => match kd_get (VStr t) d with
                         | Some i => Ok (OneId i)
                         | None => Raise (KeyError (VStr t))
                         end
             | None => Ok (AllIds d)
             end)
            (srv (get_lists self s)) (trace (get_lists self s)).
Proof.
  intros G I L. unfold list_ids. rewrite (bind_ok _ _ _ G).
  unfold bind. rewrite !lift_run, I. simpl. rewrite L. simpl.
  destruct title as [t|]; simpl.
  - destruct (kd_get (VStr t) d); simpl; rewrite !app_nil_r; reflexivity.
  - rewrite !app_nil_r. reflexivity.
Qed.

(** C8.  [list_ids] reads all the lists with one GET and fills a dict from
    title to identifier in which the last list with a given title wins; asked
    for one title, it returns the identifier that title is bound to and
    raises [KeyError] (NotFound) when no list has the title. *)
Theorem list_ids_last_wins (s : S) (lists : value) (zs : list value) :
  res (get_lists self s) = Ok lists ->
  py_iter lists = Ok zs ->
  Forall list_record zs ->
  (forall title, trace (list_ids self title s) = trace (get_lists self s)) /\
  verbs (trace (get_lists self s)) = [GET] /\
  (exists d,
      res (list_ids self None s) = Ok (AllIds d) /\
      (forall k pre z post i,
          hashable k = true ->
          zs = (pre ++ z :: post)%list ->
          field_is "title" k z = true ->
          Forall (fun y => field_is "title" k y = false) post ->
          field "id" z = Some i ->
          kd_get k d = Some i) /\
      (forall k,
          hashable k = true ->
          Forall (fun y => field_is "title" k y = false) zs ->
          kd_get k d = None)) /\
  (forall t pre z post i,
      zs = (pre ++ z :: post)%list ->
      field_is "title" (VStr t) z = true ->
      Forall (fun y => field_is "title" (VStr t) y = false) post ->
      field "id" z = Some i ->
      res (list_ids self (Some t) s) = Ok (OneId i)) /\
  (forall t,
      Forall (fun y => field_is "title" (VStr t) y = false) zs ->
      res (list_ids self (Some t) s) = Raise (KeyError (VStr t))).
Proof.
  intros G I R.
  destruct (@list_ids_loop_spec zs [] R (Forall_nil _)) as (d & L & _ & K).
  assert (Last : forall k pre z post i,
             hashable k = true -> zs = (pre ++ z :: post)%list ->
             field_is "title" k z = true ->
             Forall (fun y => field_is "title" k y = false) post ->
             field "id" z = Some i -> kd_get k d = Some i).
  { intros k pre z post i Hk -> M F Hi. rewrite (K k Hk).
    rewrite (@last_titled_last k pre post z i M F Hi). reflexivity. }
  assert (Nope : forall k, hashable k = true ->
             Forall (fun y => field_is "title" k y = false) zs -> kd_get k d = None).
  { intros k Hk F. rewrite (K k Hk), (@last_titled_none k zs F). reflexivity. }
  split; [|split; [|split; [|split]]].
  - intros title. rewrite (@list_ids_run title s lists zs d G I L). reflexivity.
  - unfold get_lists. rewrite _get_call. apply call_verbs.
  - exists d. rewrite (@list_ids_run None s lists zs d G I L). simpl. auto.
  - intros t pre z post i E M F Hi. rewrite (@list_ids_run (Some t) s lists zs d G I L). simpl.
    rewrite (Last (VStr t) pre z post i eq_refl E M F Hi). reflexivity.
  - intros t F. rewrite (@list_ids_run (Some t) s lists zs d G I L). simpl.
    rewrite (Nope (VStr t) eq_refl F). reflexivity.
Qed.

End ListIds.

(** ** [add_to_folder] against the folder service *)

Section Folders.
Variable self : Wunder.

Lemma call_run S `{Service S} (req : request) (s s' : S) (resp : response) (v : value) :
  serve s req = (resp, s') ->
  _check_response resp = Ok tt ->
  json resp = Ok v ->
  call req s = mkOutcome (Ok v) s' [(req, resp)].
Proof.
  intros E C J. unfold call, bind, send. rewrite E. simpl. rewrite C. simpl.
  rewrite J. reflexivity.
Qed.

Lemma call_rejected S `{Service S} (req : request) (s s' : S) (resp : response) (e : exc) :
  serve s req = (resp, s') ->
  _check_response resp = Raise e ->
  call req s = mkOutcome (Raise e) s' [(req, resp)].
Proof.
  intros E C. unfold call, bind, send. rewrite E. simpl. rewrite C. reflexivity.
Qed.

Lemma strip_prefix_app (p s : string) : strip_prefix p (p ++ s) = Some s.
Proof.
  induction p as [|a p IH]; simpl; [destruct s; reflexivity|].
  rewrite Ascii.eqb_refl. exact IH.
Qed.

Lemma to_int_not_nil (n : Z) : Z.to_int n <> Decimal.Pos Decimal.Nil /\
                               Z.to_int n <> Decimal.Neg Decimal.Nil.
Proof.
  destruct n as [|p|p]; simpl; split; try discriminate; intros [= E];
    exact (Unsigned.to_uint_nonnil p E).
Qed.

Lemma parse_id_str_int (n : Z) : parse_id (str_int n) = Some n.
Proof.
  unfold parse_id, str_int. destruct (to_int_not_nil n) as [P N].
  rewrite (NilZero.isi _ P N). simpl. rewrite DecimalZ.of_to. reflexivity.
Qed.

Lemma route_folder (n : Z) : route (folders_base ++ str_int n) = Some n.
Proof. unfold route. rewrite strip_prefix_app. apply parse_id_str_int. Qed.

Lemma ints_of_ints (l : list Z) : ints_of (map VInt l) = Some l.
Proof. induction l as [|n l IH]; simpl; [|rewrite IH]; reflexivity. Qed.

Lemma lookup_store (id : Z) (f : folder) (st : folders) :
  lookup id (store id f st) = Some f.
Proof.
  induction st as [|[i g] st IH]; simpl.
  - rewrite Z.eqb_refl. reflexivity.
  - destruct (i =? id) eqn:E; simpl; rewrite E; [reflexivity | exact IH].
Qed.

Lemma lookup_store_other (id other : Z) (f : folder) (st : folders) :
  other <> id -> lookup other (store id f st) = lookup other st.
Proof.
  intros N. induction st as [|[i g] st IH]; simpl.
  - destruct (id =? other) eqn:E; [apply Z.eqb_eq in E; congruence | reflexivity].
  - destruct (i =? id) eqn:E; simpl.
    + apply Z.eqb_eq in E. subst i.
      destruct (id =? other) eqn:E'; [apply Z.eqb_eq in E'; congruence | reflexivity].
    + rewrite IH. reflexivity.
Qed.

Lemma serve_folder_get (st : folders) (id : Z) (f : folder) :
  lookup id st = Some f ->
  folder_serve st (folder_get self id) = (ok_folder id f, st).
Proof.
  intros L. unfold folder_serve, folder_get. cbn [url method data].
  rewrite route_folder, L. reflexivity.
Qed.

Lemma serve_folder_patch (st : folders) (id : Z) (f : folder) (lists : list Z) :
  lookup id st = Some f ->
  folder_serve st (folder_patch self id lists (folder_rev f)) =
  (ok_folder id (mkFolder (folder_title f) lists (folder_rev f + 1)),
   store id (mkFolder (folder_title f) lists (folder_rev f + 1)) st).
Proof.
  intros L. unfold folder_serve, folder_patch. cbn [url method data].
  rewrite route_folder, L. unfold current_revision, patched.
  cbn [dict_get String.eqb Ascii.eqb Bool.eqb]. rewrite Z.eqb_refl, ints_of_ints.
  reflexivity.
Qed.

Lemma serve_folder_missing (st : folders) (id : Z) (req : request) :
  lookup id st = None -> url req = folders_base ++ str_int id ->
  folder_serve st req = (not_found, st).
Proof.
  intros L U. unfold folder_serve. rewrite U, route_folder, L. reflexivity.
Qed.

Lemma check_ok_folder (id : Z) (f : folder) : _check_response (ok_folder id f) = Ok tt.
Proof. reflexivity. Qed.

Lemma get_folder_run (st : folders) (id : Z) (f : folder) :
  lookup id st = Some f ->
  get_folder self id st =
  mkOutcome (Ok (folder_json id f)) st [(folder_get self id, ok_folder id f)].
Proof.
  intros L. unfold get_folder. rewrite _get_call.
  apply call_run; [apply (@serve_folder_get st id f L) | reflexivity | reflexivity].
Qed.

Lemma contains_int (n : Z) (l : list Z) :
  py_contains (VInt n) (VList (map VInt l)) = Ok (existsb (fun m => m =? n) l).
Proof.
  simpl. f_equal. induction l as [|m l IH]; simpl; [|rewrite IH]; reflexivity.
Qed.

Lemma merged_in (n x : Z) (l : list Z) :
  In x (merged n l) <-> In x l \/ x = n.
Proof.
  unfold merged. destruct (existsb (fun m => m =? n) l) eqn:E.
  - apply existsb_exists in E. destruct E as (m & I & Q). apply Z.eqb_eq in Q. subst m.
    split; [auto | intros [I'| ->]; assumption].
  - rewrite in_app_iff. simpl. split; [intros [I|[<-|[]]]; auto | intros [I| ->]; auto].
Qed.

Lemma merged_idem (n : Z) (l : list Z) : merged n (merged n l) = merged n l.
Proof.
  unfold merged at 1. replace (existsb (fun m => m =? n) (merged n l)) with true; [reflexivity|].
  symmetry. apply existsb_exists. exists n. split; [|apply Z.eqb_refl].
  apply merged_in. right. reflexivity.
Qed.

Lemma bind_run S A B (m : M S A) (k : A -> M S B) (s s1 s2 : S) (a : A)
    (r : result B) (t1 t2 : list exchange) :
  m s = mkOutcome (Ok a) s1 t1 ->
  k a s1 = mkOutcome r s2 t2 ->
  bind m k s = mkOutcome r s2 (t1 ++ t2).
Proof. intros E1 E2. unfold bind. rewrite E1. simpl. rewrite E2. reflexivity. Qed.

Lemma lift_ok S A (a : A) : lift (S := S) (Ok a) = ret a.
Proof. reflexivity. Qed.

Lemma bind_stop S A B (m : M S A) (k : A -> M S B) (s s1 : S) (e : exc)
    (t1 : list exchange) :
  m s = mkOutcome (Raise e) s1 t1 ->
  bind m k s = mkOutcome (Raise e) s1 t1.
Proof. intros E1. unfold bind. rewrite E1. reflexivity. Qed.

Lemma folder_revision_run (st : folders) (id : Z) (f : folder) :
  lookup id st = Some f ->
  folder_revision self id st =
  mkOutcome (Ok (VInt (folder_rev f))) st [(folder_get self id, ok_folder id f)].
Proof.
  intros L. unfold folder_revision.
  eapply eq_trans;
    [ eapply bind_run; [apply (@get_folder_run st id f L) | apply lift_run]
    | reflexivity ].
Qed.

Lemma update_folder_lists_run (st : folders) (id : Z) (f : folder) (lists : list Z) :
  lookup id st = Some f ->
  update_folder self id [("list_ids", VList (map VInt lists))] st =
  mkOutcome (Ok (folder_json id (mkFolder (folder_title f) lists (folder_rev f + 1))))
            (store id (mkFolder (folder_title f) lists (folder_rev f + 1)) st)
            [(folder_get self id, ok_folder id f);
             (folder_patch self id lists (folder_rev f),
              ok_folder id (mkFolder (folder_title f) lists (folder_rev f + 1)))].
Proof.
  intros L. unfold update_folder.
  rewrite (@bind_pure _ _ _ (check_kwargs_title [("list_ids", VList (map VInt lists))])
             _ st tt eq_refl).
  change (negb (dict_has "revision" [("list_ids", VList (map VInt lists))])) with true.
  cbv iota.
  rewrite fetch_then_use.
  eapply eq_trans;
    [ eapply bind_run;
      [ apply (@folder_revision_run st id f L)
      | apply (@call_run folders folder_service (folder_patch self id lists (folder_rev f)) _ _ _ _
                         (@serve_folder_patch st id f lists L) eq_refl eq_refl) ]
    | reflexivity ].
Qed.

Lemma add_to_folder_run (st : folders) (list_id folder_id : Z) (f : folder) :
  lookup folder_id st = Some f ->
  add_to_folder self list_id folder_id st =
  mkOutcome (Ok (folder_json folder_id (with_list list_id f)))
            (store folder_id (with_list list_id f) st)
            [(folder_get self folder_id, ok_folder folder_id f);
             (folder_get self folder_id, ok_folder folder_id f);
             (folder_patch self folder_id (merged list_id (folder_lists f)) (folder_rev f),
              ok_folder folder_id (with_list list_id f))].
Proof.
  intros L. unfold add_to_folder.
  eapply eq_trans; [eapply bind_run; [apply (@get_folder_run st folder_id f L)|] | reflexivity].
  change (py_getitem (folder_json folder_id f) "list_ids")
    with (Ok (A := value) (VList (map VInt (folder_lists f)))).
  rewrite lift_ok, bind_ret, contains_int, lift_ok, bind_ret.
  assert (E : (if negb (existsb (fun m => m =? list_id) (folder_lists f))
               then lift (S := folders)
                      (py_append (VList (map VInt (folder_lists f))) (VInt list_id))
               else ret (VList (map VInt (folder_lists f)))) =
              ret (VList (map VInt (merged list_id (folder_lists f))))).
  { unfold merged. destruct (existsb (fun m => m =? list_id) (folder_lists f)); simpl;
      [reflexivity|]. rewrite map_app. reflexivity. }
  rewrite E, bind_ret.
  apply (@update_folder_lists_run st folder_id f (merged list_id (folder_lists f)) L).
Qed.

Lemma add_to_folder_missing (st : folders) (list_id folder_id : Z) :
  lookup folder_id st = None ->
  srv (add_to_folder self list_id folder_id st) = st.
Proof.
  intros L. unfold add_to_folder, get_folder. rewrite _get_call.
  rewrite (@bind_stop _ _ _ _ _ _ _ _ _
             (@call_rejected folders folder_service (prepare self GET (folders_base ++ str_int folder_id) no_kwargs)
                _ _ _ _ (@serve_folder_missing st folder_id
                   (prepare self GET (folders_base ++ str_int folder_id) no_kwargs)
                   L eq_refl) eq_refl)).
  reflexivity.
Qed.

(** C7 (amended).  Against the folder service, [add_to_folder] on an existing
    folder sends three requests: a GET for the lists of the folder, a second
    GET (the one [update_folder] makes for the revision) and the PATCH with
    the merged lists and that revision; afterwards the lists of the folder
    are the former ones together with [list_id], and no other folder has
    changed. *)
Theorem add_to_folder_three_requests (st : folders) (list_id folder_id : Z) (f : folder) :
  lookup folder_id st = Some f ->
  requests (trace (add_to_folder self list_id folder_id st)) =
    [folder_get self folder_id;
     folder_get self folder_id;
     folder_patch self folder_id (merged list_id (folder_lists f)) (folder_rev f)] /\
  res (add_to_folder self list_id folder_id st) =
    Ok (folder_json folder_id (with_list list_id f)) /\
  (exists lists,
      membership (srv (add_to_folder self list_id folder_id st)) folder_id = Some lists /\
      forall x, In x lists <-> In x (folder_lists f) \/ x = list_id) /\
  (forall other, other <> folder_id ->
      membership (srv (add_to_folder self list_id folder_id st)) other =
      membership st other).
Proof.
  intros L. rewrite (@add_to_folder_run st list_id folder_id f L). cbn [trace res srv requests map fst].
  split; [reflexivity|]. split; [reflexivity|]. split.
  - exists (merged list_id (folder_lists f)). unfold membership.
    rewrite lookup_store. split; [reflexivity|]. intros x. apply merged_in.
  - intros other N. unfold membership. rewrite (@lookup_store_other folder_id other _ st N).
    reflexivity.
Qed.

Lemma merged_present (n : Z) (l : list Z) : In n l -> merged n l = l.
Proof.
  intros I. unfold merged.
  replace (existsb (fun m => m =? n) l) with true; [reflexivity|].
  symmetry. apply existsb_exists. exists n. split; [exact I | apply Z.eqb_refl].
Qed.

(** C6.  Against the folder service, [add_to_folder] is idempotent: after a
    second call with the same arguments every folder has the lists it had
    after the first; and adding a list that the folder already holds leaves
    the lists of every folder as they were. *)
Theorem add_to_folder_idempotent (st : folders) (list_id folder_id other : Z) :
  membership
    (srv (add_to_folder self list_id folder_id
            (srv (add_to_folder self list_id folder_id st)))) other =
  membership (srv (add_to_folder self list_id folder_id st)) other /\
  (forall f,
      lookup folder_id st = Some f ->
      In list_id (folder_lists f) ->
      membership (srv (add_to_folder self list_id folder_id st)) other =
      membership st other).
Proof.
  split.
  - destruct (lookup folder_id st) as [f|] eqn:L.
    + rewrite (@add_to_folder_run st list_id folder_id f L). cbn [srv].
      rewrite (@add_to_folder_run _ list_id folder_id _
                 (lookup_store folder_id (with_list list_id f) st)). cbn [srv].
      unfold membership. destruct (Z.eq_dec other folder_id) as [->|N].
      * rewrite !lookup_store. unfold with_list. cbn [folder_lists option_map].
        rewrite merged_idem. reflexivity.
      * rewrite !lookup_store_other by exact N. reflexivity.
    + rewrite (@add_to_folder_missing st list_id folder_id L).
      rewrite (@add_to_folder_missing st list_id folder_id L). reflexivity.
  - intros f L I. rewrite (@add_to_folder_run st list_id folder_id f L). cbn [srv].
    unfold membership. destruct (Z.eq_dec other folder_id) as [->|N].
    + rewrite lookup_store, L. unfold with_list. cbn [folder_lists option_map].
      rewrite (merged_present _ _ I). reflexivity.
    + rewrite lookup_store_other by exact N. reflexivity.
Qed.

End Folders.

(** ** [add_to_folder] against any service *)

Section AnyService.
Context {S : Type} `{Service S}.
Variable self : Wunder.

Lemma bind_ok_inv A B (m : M S A) (k : A -> M S B) (s : S) (b : B) :
  res (bind m k s) = Ok b ->
  exists a,
    res (m s) = Ok a /\
    res (k a (srv (m s))) = Ok b /\
    trace (bind m k s) = (trace (m s) ++ trace (k a (srv (m s))))%list.
Proof.
  intros R. destruct (res (m s)) as [a|e] eqn:E.
  - rewrite (bind_ok _ _ _ E) in *. simpl in *. exists a. auto.
  - rewrite (bind_raise _ _ _ E) in R. discriminate.
Qed.

Lemma lift_trace A (r : result A) (s : S) : trace (lift r s) = [].
Proof. rewrite lift_run. reflexivity. Qed.

(** Whatever the service, a call of [add_to_folder] that returns has sent
    three requests: two GETs and a PATCH. *)
Lemma add_to_folder_verbs (list_id folder_id : Z) (s : S) (v : value) :
  res (add_to_folder self list_id folder_id s) = Ok v ->
  verbs (trace (add_to_folder self list_id folder_id s)) = [GET; GET; PATCH].
Proof.
  unfold add_to_folder. intros R.
  apply bind_ok_inv in R. destruct R as (folder & _ & R & ->).
  apply bind_ok_inv in R. destruct R as (l & _ & R & ->).
  apply bind_ok_inv in R. destruct R as (present & _ & R & ->).
  apply bind_ok_inv in R. destruct R as (l' & _ & R & ->).
  rewrite !lift_run in *. cbn [srv trace] in *.
  assert (T : forall s' : S,
             (if negb present
              then lift (py_append l (VInt list_id))
              else ret l) s' =
             mkOutcome (res ((if negb present
                              then lift (py_append l (VInt list_id))
                              else ret l) s')) s' []).
  { intros s'. destruct (negb present); [|reflexivity].
    destruct (py_append l (VInt list_id)); reflexivity. }
  rewrite T in *. cbn [srv trace app] in *. clear T.
  unfold update_folder in *.
  rewrite (@bind_pure _ _ _ (check_kwargs_title [("list_ids", l')]) _ _ tt eq_refl) in *.
  change (negb (dict_has "revision" [("list_ids", l')])) with true in *. cbv iota in *.
  rewrite fetch_then_use in *.
  apply bind_ok_inv in R. destruct R as (r & _ & _ & ->).
  unfold folder_revision, get_folder.
  rewrite !_get_call, _patch_call, read_trace, !call_trace. reflexivity.
Qed.
End AnyService.

(** ** The statements at sample inputs *)

Lemma long_title_sends_nothing_witness :
  (255 < String.length long_title)%nat /\
  dict_get "title" [("title", VStr long_title)] = Some (VStr long_title) /\
  fails_before_sending (make_list me long_title ([] : script)) [] title_too_long /\
  fails_before_sending (update_list me 5 [("title", VStr long_title)] ([] : script)) []
                       title_too_long.
Proof.
  assert (L : (255 < String.length long_title)%nat) by (vm_compute; lia).
  split; [exact L|]. split; [reflexivity|].
  destruct (@long_title_sends_nothing script scripted me long_title [] 5 6 7 8 [1]
              [] [("title", VStr long_title)] false L eq_refl)
    as (A & _ & _ & _ & B & _).
  split; assumption.
Defined.

Lemma scoped_reads_witness :
  fails_before_sending (get_notes me (VInt 11) (VInt 9) ([] : script)) []
                       (exactly_one "get_notes") /\
  fails_before_sending (get_subtasks me VNone VNone true ([] : script)) []
                       (exactly_one "get_subtasks") /\
  requests (trace (get_notes me (VInt 11) VNone ([] : script))) =
    [mkRequest GET "http://a.wunderlist.com/api/v1/notes"
       (Some [("list_id", PVal (VInt 11))]) None (headers_plain me)].
Proof.
  split; [|split].
  - apply (proj1 (@scoped_reads script scripted me (VInt 11) (VInt 9) false [])).
    reflexivity.
  - apply (proj1 (@scoped_reads script scripted me VNone VNone true [])).
    reflexivity.
  - apply (proj2 (@scoped_reads script scripted me (VInt 11) VNone false [])).
    discriminate.
Defined.

Lemma revision_resolution_witness :
  title_ok [("title", VStr "Groceries")] /\
  read_then_write (list_revision me 5) PATCH
    (update_list me 5 [("title", VStr "Groceries")]
       [ok_json (VDict [("id", VInt 5); ("revision", VInt 3)]); ok_json (VDict [])])
    [ok_json (VDict [("id", VInt 5); ("revision", VInt 3)]); ok_json (VDict [])] /\
  write_only DELETE (delete_task me 9 (VInt 2) [mkResponse 204 (Some (VDict []))]).
Proof.
  assert (T : title_ok [("title", VStr "Groceries")]) by reflexivity.
  split; [exact T|]. split.
  - apply (proj1 (proj2 (@revision_resolution script scripted me
             [ok_json (VDict [("id", VInt 5); ("revision", VInt 3)]); ok_json (VDict [])]
             5 [("title", VStr "Groceries")] "milk" VNone T))).
    reflexivity.
  - apply (proj1 (proj2 (proj2 (@revision_resolution script scripted me
             [mkResponse 204 (Some (VDict []))] 9 [("title", VStr "Groceries")] "milk"
             (VInt 2) T)))).
    reflexivity.
Defined.

(** C4 as stated fails: when the read is answered with an error, an update
    without a revision sends that one request and no write; and an update
    with a revision and a title that is too long sends none. *)
Lemma revision_resolution_counterexample :
  verbs (trace (update_list me 5 [("title", VStr "Groceries")] [not_found])) = [GET] /\
  res (update_list me 5 [("title", VStr "Groceries")] [not_found]) =
    Raise (ValueError (VStr "The resource you requested could not be found.")) /\
  trace (update_list me 5 [("title", VStr long_title); ("revision", VInt 3)]
           ([] : script)) = [].
Proof. vm_compute. repeat split. Qed.

(** A 204 without a body that decodes does not return [True] either: the
    validator's call to [response.json()] raises. *)
Lemma delete_without_body :
  res (delete_task me 9 (VInt 2) [mkResponse 204 None]) = Raise JSONDecodeError.
Proof. reflexivity. Qed.


Lemma note_records_two_notes : Forall note_record two_notes.
Proof. repeat constructor; eexists; reflexivity. Qed.

Lemma get_note_id_scans_witness :
  res (get_note_id me 9 note_script) = Ok (VInt 101) /\
  res (get_note_id me 10 note_script) =
    Raise (KeyError (VStr "No note_id found for the given task_id.")).
Proof.
  split.
  - destruct (@get_note_id_scans script scripted me note_script 9 task_nine (VInt 11)
                (VList two_notes) two_notes eq_refl eq_refl eq_refl eq_refl eq_refl
                note_records_two_notes) as (_ & F & _).
    rewrite (F [VDict [("id", VInt 100); ("task_id", VInt 8); ("content", VStr "milk")]]
               (VDict [("id", VInt 101); ("task_id", VInt 9); ("content", VStr "eggs")])
               [] eq_refl).
    + reflexivity.
    + repeat constructor.
    + reflexivity.
  - destruct (@get_note_id_scans script scripted me note_script 10 task_nine (VInt 11)
                (VList two_notes) two_notes eq_refl eq_refl eq_refl eq_refl eq_refl
                note_records_two_notes) as (_ & _ & N).
    apply N. repeat constructor.
Defined.

Lemma list_records_three_lists : Forall list_record three_lists.
Proof. repeat constructor; eexists; try split; reflexivity. Qed.

Lemma list_ids_last_wins_witness :
  res (list_ids me (Some "Groceries") [ok_json (VList three_lists)]) = Ok (OneId (VInt 13)) /\
  res (list_ids me (Some "Home") [ok_json (VList three_lists)]) =
    Raise (KeyError (VStr "Home")).
Proof.
  destruct (@list_ids_last_wins script scripted me [ok_json (VList three_lists)]
              (VList three_lists) three_lists eq_refl eq_refl list_records_three_lists)
    as (_ & _ & _ & One & Absent).
  split.
  - apply (One "Groceries"
               [VDict [("id", VInt 11); ("title", VStr "Groceries")];
                VDict [("id", VInt 12); ("title", VStr "Work")]]
               (VDict [("id", VInt 13); ("title", VStr "Groceries")]) []);
      try reflexivity. constructor.
  - apply Absent. repeat constructor.
Defined.

Lemma add_to_folder_three_requests_witness :
  lookup 7 home = Some (mkFolder "Home" [1; 2] 4) /\
  requests (trace (add_to_folder me 3 7 home)) =
    [folder_get me 7; folder_get me 7; folder_patch me 7 [1; 2; 3] 4] /\
  membership (srv (add_to_folder me 3 7 home)) 7 = Some [1; 2; 3].
Proof.
  split; [reflexivity|].
  destruct (@add_to_folder_three_requests me home 3 7 (mkFolder "Home" [1; 2] 4) eq_refl)
    as (R & _ & _ & _).
  split; [exact R | reflexivity].
Defined.

(** C7 as stated fails: [add_to_folder] makes three round trips, not two. *)
Lemma add_to_folder_three_requests_counterexample :
  verbs (trace (add_to_folder me 3 7 home)) = [GET; GET; PATCH] /\
  List.length (trace (add_to_folder me 3 7 home)) = 3%nat.
Proof. vm_compute. split; reflexivity. Qed.

Lemma delete_no_content_raises_witness :
  last_exchange (trace (delete_task me 9 (VInt 2) [mkResponse 204 None])) =
    Some (delete_request me "http://a.wunderlist.com/api/v1/tasks/9" (PStr (VInt 2)),
          mkResponse 204 None) /\
  res (delete_task me 9 (VInt 2) [mkResponse 204 None]) = Raise JSONDecodeError /\
  res (delete_note me 100 VNone [ok_json (VDict [("revision", VInt 6)]);
                                 mkResponse 204 None]) = Raise JSONDecodeError.
Proof.
  split; [reflexivity|]. split.
  - apply (proj1 (proj2 (proj2 (@delete_no_content_raises script scripted me
             [mkResponse 204 None] 9 (VInt 2)
             (delete_request me "http://a.wunderlist.com/api/v1/tasks/9" (PStr (VInt 2)))
             (mkResponse 204 None) eq_refl eq_refl)))).
    reflexivity.
  - apply (proj2 (proj2 (proj2 (proj2 (@delete_no_content_raises script scripted me
             [ok_json (VDict [("revision", VInt 6)]); mkResponse 204 None] 100 VNone
             (delete_request me "http://a.wunderlist.com/api/v1/notes/100" (PVal (VInt 6)))
             (mkResponse 204 None) eq_refl eq_refl))))).
    reflexivity.
Defined.

Lemma add_to_folder_idempotent_witness :
  membership (srv (add_to_folder me 3 7 (srv (add_to_folder me 3 7 home)))) 7 =
    Some [1; 2; 3] /\
  membership (srv (add_to_folder me 2 7 home)) 7 = membership home 7.
Proof.
  split.
  - rewrite (proj1 (@add_to_folder_idempotent me home 3 7 7)). reflexivity.
  - apply (proj2 (@add_to_folder_idempotent me home 2 7 7) (mkFolder "Home" [1; 2] 4)).
    + reflexivity.
    + right. left. reflexivity.
Defined.

(** ** What every method keeps to *)

Section Invariants.
Context {S : Type} `{Service S}.
Variable self : Wunder.

Lemma sends_only_bind A B (P : exchange -> Prop) (m : M S A) (k : A -> M S B) :
  sends_only P m -> (forall a, sends_only P (k a)) -> sends_only P (bind m k).
Proof.
  intros Hm Hk s. unfold bind. specialize (Hm s).
  destruct (res (m s)) as [a|e]; simpl; [|exact Hm].
  apply Forall_app. split; [exact Hm | apply Hk].
Qed.

Lemma sends_only_ret A (P : exchange -> Prop) (a : A) : sends_only (S := S) P (ret a).
Proof. intros s. constructor. Qed.

Lemma sends_only_raise A (P : exchange -> Prop) (e : exc) :
  sends_only (S := S) (A := A) P (raise e).
Proof. intros s. constructor. Qed.

Lemma sends_only_lift A (P : exchange -> Prop) (r : result A) :
  sends_only (S := S) P (lift r).
Proof. intros s. rewrite lift_run. constructor. Qed.

Lemma sends_only_call (P : exchange -> Prop) (req : request) :
  (forall resp, P (req, resp)) -> sends_only P (call req).
Proof. intros HP s. rewrite call_trace. constructor; [apply HP | constructor]. Qed.

Lemma sends_only_delete (P : exchange -> Prop) (u : string) (kw : kwargs_t) :
  (forall resp, P (prepare self DELETE u kw, resp)) ->
  sends_only P (_delete self u kw).
Proof. intros HP s. rewrite _delete_trace. constructor; [apply HP | constructor]. Qed.

Lemma sends_at_most_bind A B (n1 n2 : nat) (m : M S A) (k : A -> M S B) :
  sends_at_most n1 m -> (forall a, sends_at_most n2 (k a)) ->
  sends_at_most (n1 + n2) (bind m k).
Proof.
  intros Hm Hk s. unfold bind. specialize (Hm s).
  destruct (res (m s)) as [a|e]; simpl; [|lia].
  rewrite length_app. specialize (Hk a (srv (m s))). lia.
Qed.

Lemma sends_at_most_ret A (a : A) : sends_at_most (S := S) 0 (ret a).
Proof. intros s. apply le_n. Qed.

Lemma sends_at_most_raise A (e : exc) : sends_at_most (S := S) (A := A) 0 (raise e).
Proof. intros s. apply le_n. Qed.

Lemma sends_at_most_lift A (r : result A) : sends_at_most (S := S) 0 (lift r).
Proof. intros s. rewrite lift_run. apply le_n. Qed.

Lemma sends_at_most_call (req : request) : sends_at_most 1 (call req).
Proof. intros s. rewrite call_trace. apply le_n. Qed.

Lemma sends_at_most_delete (u : string) (kw : kwargs_t) :
  sends_at_most 1 (_delete self u kw).
Proof. intros s. rewrite _delete_trace. apply le_n. Qed.

Lemma sends_at_most_if A (n1 n2 : nat) (b : bool) (m1 m2 : M S A) :
  sends_at_most n1 m1 -> sends_at_most n2 m2 ->
  sends_at_most (Nat.max n1 n2) (if b then m1 else m2).
Proof.
  intros H1 H2 s. destruct b; [specialize (H1 s) | specialize (H2 s)]; lia.
Qed.

Lemma sends_at_most_le A (n n' : nat) (m : M S A) :
  sends_at_most n m -> (n <= n')%nat -> sends_at_most n' m.
Proof. intros Hm L s. specialize (Hm s). lia. Qed.

Ltac unfold_methods :=
  unfold get_user, get_users, get_lists, update_list, make_list, make_list_public,
    delete_list, get_folders, make_folder, get_folder_revisions, update_folder,
    delete_folder, get_tasks, make_task, update_task, delete_task, get_subtasks,
    make_subtask, update_subtask, delete_subtask, get_notes, make_note,
    update_note, delete_note, list_ids, folder_ids, add_to_folder, get_note_id,
    update_folder, get_notes, list_revision, folder_revision, get_lists,
    get_folders, get_list, get_folder, get_task, get_subtask, get_note,
    check_kwargs_title;
  cbv zeta; rewrite ?_get_call, ?_post_call, ?_patch_call.

Ltac solve_sends leaf :=
  repeat
    match goal with
    | |- sends_only _ (bind _ _) => apply sends_only_bind; [|intro]
    | |- sends_only _ (ret _) => apply sends_only_ret
    | |- sends_only _ (raise _) => apply sends_only_raise
    | |- sends_only _ (lift _) => apply sends_only_lift
    | |- sends_only _ (_get _ _ _) => rewrite _get_call
    | |- sends_only _ (_post _ _ _) => rewrite _post_call
    | |- sends_only _ (_patch _ _ _) => rewrite _patch_call
    | |- sends_only _ (call _) => apply sends_only_call; intro; leaf
    | |- sends_only _ (_delete _ _ _) => apply sends_only_delete; intro; leaf
    | |- sends_only _ (if ?b then _ else _) => destruct b
    | |- sends_only _ (match ?x with _ => _ end) => destruct x
    end.

Ltac as_sends_only :=
  match goal with
  | s : S |- Forall ?P (trace ?t) =>
      match t with
      | ?m s => revert s; change (sends_only P m)
      end
  end.

Lemma requests_well_headed (c : invocation) (s : S) :
  Forall (fun x => well_headed self (fst x)) (exchanges self c s).
Proof.
  destruct c; cbn [exchanges]; as_sends_only; unfold_methods;
    solve_sends ltac:(reflexivity).
Qed.

(** X2.  A method uses only the verbs of its kind: a reader sends nothing but
    GET, a creation nothing but POST, an update GET and PATCH, a deletion GET
    and DELETE. *)
Theorem verbs_of_each_method (c : invocation) (s : S) :
  Forall (fun x => In (method (fst x)) (allowed_verbs c)) (exchanges self c s).
Proof.
  destruct c; cbn [exchanges allowed_verbs]; as_sends_only; unfold_methods;
    solve_sends ltac:(cbn [fst]; rewrite ?prepare_method; simpl; auto).
Qed.

Ltac solve_most :=
  repeat
    match goal with
    | |- sends_at_most _ (bind _ _) => eapply sends_at_most_bind; [|intro]
    | |- sends_at_most _ (ret _) => apply sends_at_most_ret
    | |- sends_at_most _ (raise _) => apply sends_at_most_raise
    | |- sends_at_most _ (lift _) => apply sends_at_most_lift
    | |- sends_at_most _ (_get _ _ _) => rewrite _get_call
    | |- sends_at_most _ (_post _ _ _) => rewrite _post_call
    | |- sends_at_most _ (_patch _ _ _) => rewrite _patch_call
    | |- sends_at_most _ (call _) => apply sends_at_most_call
    | |- sends_at_most _ (_delete _ _ _) => apply sends_at_most_delete
    | |- sends_at_most _ (if _ then _ else _) => eapply sends_at_most_if
    | |- sends_at_most _ (match ?x with _ => _ end) => destruct x
    end.

(** X3.  No method sends more than three requests: [add_to_folder] at most
    three; an update, a deletion and [get_note_id] at most two; every other
    method at most one. *)
Theorem requests_of_each_method (c : invocation) (s : S) :
  (List.length (exchanges self c s) <= most_requests c)%nat.
Proof.
  destruct c; cbn [exchanges most_requests];
    match goal with
    | |- (List.length (trace ?t) <= ?n)%nat =>
        match t with
        | ?m s => revert s; change (sends_at_most n m)
        end
    end;
    unfold_methods;
    (eapply sends_at_most_le; [solve_most | cbn; lia]).
Qed.

End Invariants.

(** X1.  Every request of every method of an object made by [__init__]
    carries the access token and the client identifier it was made with, and
    carries the JSON content type exactly when it has data. *)
Theorem credentials_on_every_request S `{Service S}
    (oauth_token client_id : string) (c : invocation) (s : S) :
  Forall (fun x =>
            In ("X-Access-Token", oauth_token) (headers (fst x)) /\
            In ("X-Client-ID", client_id) (headers (fst x)) /\
            (In ("Content-Type", "application/json") (headers (fst x)) <->
             data (fst x) <> None))
         (exchanges (__init__ oauth_token client_id) c s).
Proof.
  eapply Forall_impl; [|apply requests_well_headed].
  intros [req resp]. unfold well_headed. cbn [fst].
  destruct (data req) as [d|]; intros ->; cbn [headers_plain headers_payload __init__].
  - split; [simpl; auto|]. split; [simpl; auto|].
    split; [discriminate | intros _; simpl; auto].
  - split; [simpl; auto|]. split; [simpl; auto|].
    split; [|intros N; destruct (N eq_refl)].
    simpl. intros [E|[E|[]]]; discriminate.
Qed.

(** ** The validator and the plain reads *)

Lemma check_response_accepted (r : response) :
  _check_response r = Ok tt <-> exists v, json r = Ok v /\ error_free v.
Proof.
  unfold _check_response, error_free. destruct (json r) as [v|e]; simpl.
  - destruct v as [|b|n|t|l|d]; simpl;
      try (split; [discriminate | intros (v & [= <-] & [[l' E]|(d' & E & _)]); discriminate]).
    + split; [intros _; exists (VList l); split; [reflexivity | left; eauto] | reflexivity].
    + unfold dict_has. destruct (dict_get "error" d) as [err|] eqn:E; simpl.
      * split.
        -- destruct (py_contains (VStr "revision_conflict") err) as [[|]|]; simpl;
             try discriminate.
           destruct (py_getitem err "message"); discriminate.
        -- intros (v & [= <-] & [[l' Q]|(d' & Q & N)]); [discriminate|].
           injection Q as <-. congruence.
      * split; [|reflexivity]. intros _. exists (VDict d). split; [reflexivity|].
        right. eauto.
  - split; [discriminate | intros (v & Q & _); discriminate].
Qed.

(** X4.  The validator accepts a response exactly when its body decodes to a
    list or to a dict without an ['error'] entry.  A dict with an ['error']
    entry is rejected whatever the entry is; a body that is neither a list
    nor a dict raises [AttributeError]; a body that does not decode raises the
    decoding error. *)
Theorem validator_accepts_exactly (r : response) :
  (_check_response r = Ok tt <-> exists v, json r = Ok v /\ error_free v) /\
  (forall d err, json r = Ok (VDict d) -> dict_get "error" d = Some err ->
                 exists e, _check_response r = Raise e) /\
  (forall v, json r = Ok v -> (forall l, v <> VList l) -> (forall d, v <> VDict d) ->
             exists msg, _check_response r = Raise (AttributeError msg)) /\
  (forall e, json r = Raise e -> _check_response r = Raise e).
Proof.
  split; [apply check_response_accepted|]. split; [|split].
  - intros d err J E. destruct (_check_response r) as [[]|e] eqn:C; [|eauto].
    apply check_response_accepted in C.
    destruct C as (v & Q & [[l Q']|(d' & Q' & N)]); rewrite J in Q; injection Q as <-.
    + discriminate.
    + injection Q' as <-. congruence.
  - intros v J NL ND. unfold _check_response. rewrite J. simpl.
    destruct v; try (eexists; reflexivity).
    + destruct (NL l eq_refl).
    + destruct (ND d eq_refl).
  - intros e J. unfold _check_response. rewrite J. reflexivity.
Qed.

Section PlainReads.
Context {S : Type} `{Service S}.
Variable self : Wunder.

Lemma call_returns (req : request) (s : S) (v : value) :
  res (call req s) = Ok v <->
  json (fst (serve s req)) = Ok v /\ error_free v.
Proof.
  rewrite call_res. split.
  - destruct (_check_response (fst (serve s req))) as [[]|e] eqn:C; simpl; [|discriminate].
    intros J. split; [exact J|].
    apply check_response_accepted in C. destruct C as (v' & J' & F). congruence.
  - intros [J F]. assert (C : _check_response (fst (serve s req)) = Ok tt).
    { apply check_response_accepted. eauto. }
    rewrite C. exact J.
Qed.

(** X5.  Each of the eleven plain reads sends exactly one GET, without data,
    and returns [v] exactly when the body of the response decodes to [v] and
    [v] is a list or a dict without an ['error'] entry: the body comes back
    unchanged. *)
Theorem plain_reads_return_the_body (c : invocation) (g : M S value) (s : S) :
  plain_read self c = Some g ->
  exists rq resp,
    trace (g s) = [(rq, resp)] /\
    method rq = GET /\
    data rq = None /\
    forall v, res (g s) = Ok v <-> json resp = Ok v /\ error_free v.
Proof.
  intros P.
  assert (E : exists rq, g = call rq /\ method rq = GET /\ data rq = None).
  { destruct c; try discriminate; injection P as <-;
      try (eexists; split; [apply _get_call | split; reflexivity]).
    unfold get_users. destruct (negb (is_none list_id));
      eexists; (split; [apply _get_call | split; reflexivity]). }
  destruct E as (rq & -> & Mq & Dq).
  exists rq, (fst (serve s rq)). rewrite call_trace.
  split; [reflexivity|]. split; [exact Mq|]. split; [exact Dq|].
  intros v. apply call_returns.
Qed.

End PlainReads.

(** ** What the writes carry *)

Lemma dict_get_set (k k' : string) (v : value) (d : pydict) :
  dict_get k' (dict_set k v d) = if String.eqb k k' then Some v else dict_get k' d.
Proof.
  induction d as [|[k0 v0] d IH]; simpl.
  - reflexivity.
  - destruct (String.eqb k0 k) eqn:E; simpl.
    + apply String.eqb_eq in E. subst k0. destruct (String.eqb k k'); reflexivity.
    + rewrite IH. destruct (String.eqb k0 k') eqn:E'; [|reflexivity].
      apply String.eqb_eq in E'. subst k0.
      rewrite String.eqb_sym, E. reflexivity.
Qed.

Lemma dict_get_absent (k : string) (d : pydict) :
  ~ In k (map fst d) -> dict_get k d = None.
Proof.
  induction d as [|[k0 v0] d IH]; simpl; intros N; [reflexivity|].
  destruct (String.eqb k0 k) eqn:E.
  - apply String.eqb_eq in E. destruct N. auto.
  - apply IH. intros I. apply N. auto.
Qed.

Lemma dict_get_update (k : string) (d e : pydict) :
  NoDup (map fst e) ->
  dict_get k (dict_update d e) =
  match dict_get k e with
  | Some v => Some v
  | None => dict_get k d
  end.
Proof.
  unfold dict_update. revert d. induction e as [|[k0 v0] e IH]; simpl; intros d N.
  - reflexivity.
  - inversion N as [|? ? N0 N']; subst. rewrite (IH _ N'), dict_get_set.
    destruct (String.eqb k0 k) eqn:E.
    + apply String.eqb_eq in E. subst k0. rewrite (dict_get_absent _ _ N0). reflexivity.
    + reflexivity.
Qed.

Section Writes.
Context {S : Type} `{Service S}.
Variable self : Wunder.

Lemma check_title_short (title : string) :
  (String.length title <= 255)%nat -> _check_title (VStr title) = Ok tt.
Proof.
  intros L. unfold _check_title. simpl.
  replace (255 <? String.length title)%nat with false; [reflexivity|].
  symmetry. apply Nat.ltb_ge. exact L.
Qed.

Lemma post_after_check (title : string) (u : string) (payload : value) (s : S) :
  (String.length title <= 255)%nat ->
  requests (trace (bind (lift (_check_title (VStr title)))
                        (fun _ => _post self u (with_payload payload)) s)) =
  [mkRequest POST u None (Some payload) (headers_payload self)].
Proof.
  intros L. rewrite (check_title_short title L), lift_ok, bind_ret, _post_call, call_trace.
  reflexivity.
Qed.

(** X6.  With a title of at most 255 characters a creation sends exactly one
    request, a POST whose data are the fields given: the title for a list;
    the title and the lists for a folder; the task and the title, and
    [completed] only when it is set, for a subtask.  [make_note] checks no
    length and always sends its one POST. *)
Theorem creations_post_once
    (title content : string) (list_ids : list Z) (task_id : Z) (completed : bool) (s : S) :
  (String.length title <= 255)%nat ->
  requests (trace (make_list self title s)) =
    [mkRequest POST "http://a.wunderlist.com/api/v1/lists" None
       (Some (VDict [("title", VStr title)])) (headers_payload self)] /\
  requests (trace (make_folder self title list_ids s)) =
    [mkRequest POST "http://a.wunderlist.com/api/v1/folders" None
       (Some (VDict [("title", VStr title); ("list_ids", VList (map VInt list_ids))]))
       (headers_payload self)] /\
  requests (trace (make_subtask self task_id title completed s)) =
    [mkRequest POST "https://a.wunderlist.com/api/v1/subtasks" None
       (Some (VDict (("task_id", VInt task_id) :: ("title", VStr title) ::
                     (if completed then [("completed", VBool true)] else []))))
       (headers_payload self)] /\
  requests (trace (make_note self task_id content s)) =
    [mkRequest POST "https://a.wunderlist.com/api/v1/notes" None
       (Some (VDict [("task_id", VInt task_id); ("content", VStr content)]))
       (headers_payload self)].
Proof.
  intros L. unfold make_list, make_folder, make_subtask, make_note. cbv zeta.
  rewrite !(post_after_check _ _ _ _ L).
  repeat split.
  - destruct completed; reflexivity.
  - rewrite _post_call, call_trace. reflexivity.
Qed.

Lemma dict_set_fresh (k : string) (v : value) (d : pydict) :
  ~ In k (map fst d) -> dict_set k v d = (d ++ [(k, v)])%list.
Proof.
  induction d as [|[k0 v0] d IH]; simpl; intros N; [reflexivity|].
  destruct (String.eqb k0 k) eqn:E.
  - apply String.eqb_eq in E. destruct N. auto.
  - rewrite IH; [reflexivity|]. intros I. apply N. auto.
Qed.

Lemma dict_update_fresh (d e : pydict) :
  NoDup (map fst e) ->
  (forall k, In k (map fst e) -> ~ In k (map fst d)) ->
  dict_update d e = (d ++ e)%list.
Proof.
  unfold dict_update. revert d. induction e as [|[k v] e IH]; simpl; intros d N Dj.
  - symmetry. apply app_nil_r.
  - inversion N as [|? ? N0 N']; subst.
    rewrite dict_set_fresh by (apply Dj; left; reflexivity).
    rewrite IH; [rewrite <- app_assoc; reflexivity | exact N' |].
    intros k' I. rewrite map_app, in_app_iff. simpl. intros [X|[X|[]]].
    + apply (Dj k'); auto.
    + subst k'. contradiction.
Qed.

(** X7.  With a title of at most 255 characters and keyword arguments that
    Python admits (each name once, none of them [list_id] or [title]),
    [make_task] sends one POST whose data are the list and the title given,
    followed by the keyword arguments in their order, unchanged. *)
Theorem make_task_payload
    (list_id : Z) (title : string) (kwargs : pydict) (s : S) :
  (String.length title <= 255)%nat ->
  NoDup (map fst kwargs) ->
  ~ In "list_id" (map fst kwargs) ->
  ~ In "title" (map fst kwargs) ->
  requests (trace (make_task self list_id title kwargs s)) =
    [mkRequest POST "https://a.wunderlist.com/api/v1/tasks" None
       (Some (VDict (("list_id", VInt list_id) :: ("title", VStr title) :: kwargs)))
       (headers_payload self)].
Proof.
  intros L N NL NT. unfold make_task.
  rewrite (post_after_check _ _ _ _ L).
  rewrite dict_update_fresh; [reflexivity | exact N |].
  intros k I [<-|[<-|[]]]; contradiction.
Qed.

End Writes.

(** ** The revision a write carries *)

Section Carried.
Context {S : Type} `{Service S}.
Variable self : Wunder.

Lemma read_then_requests A B (u : string) (f : value -> result A) (k : A -> M S B)
    (s : S) (r : A) :
  res (bind (_get self u no_kwargs) (fun t => lift (f t)) s) = Ok r ->
  requests (trace (bind (bind (_get self u no_kwargs) (fun t => lift (f t))) k s)) =
  get_request self u ::
  requests (trace (k r (srv (bind (_get self u no_kwargs) (fun t => lift (f t)) s)))).
Proof.
  intros E. rewrite (bind_ok _ _ _ E). cbn [trace]. unfold requests.
  rewrite map_app, _get_call, read_trace. reflexivity.
Qed.

Lemma patch_requests (u : string) (payload : pydict) (s : S) :
  requests (trace (_patch self u (VDict payload) s)) = [patch_request self u payload].
Proof. rewrite _patch_call, call_trace. reflexivity. Qed.

Lemma delete_requests (u : string) (p : param) (s : S) :
  requests (trace (_delete self u (with_params [("revision", p)]) s)) =
  [delete_request self u p].
Proof. rewrite _delete_trace. reflexivity. Qed.

(** X8.  An update whose title passes the check writes the fields it was
    given.  With a revision among them it sends one PATCH whose data are
    those fields unchanged; without, it reads the resource and sends a PATCH
    whose data are the fields together with the revision just read.
    [update_note] writes the revision and the content in the same way. *)
Theorem updates_carry_the_fields
    (s : S) (id : Z) (kwargs : pydict) (content : string) (revision : value) :
  title_ok kwargs ->
  (dict_has "revision" kwargs = true ->
   requests (trace (update_list self id kwargs s)) =
     [patch_request self ("http://a.wunderlist.com/api/v1/lists/" ++ str_int id) kwargs] /\
   requests (trace (update_folder self id kwargs s)) =
     [patch_request self ("http://a.wunderlist.com/api/v1/folders/" ++ str_int id) kwargs] /\
   requests (trace (update_task self id kwargs s)) =
     [patch_request self ("http://a.wunderlist.com/api/v1/tasks/" ++ str_int id) kwargs] /\
   requests (trace (update_subtask self id kwargs s)) =
     [patch_request self ("http://a.wunderlist.com/api/v1/subtasks/" ++ str_int id) kwargs]) /\
  (dict_has "revision" kwargs = false ->
   (forall r, res (list_revision self id s) = Ok r ->
      requests (trace (update_list self id kwargs s)) =
        [get_request self ("https://a.wunderlist.com/api/v1/lists/" ++ str_int id);
         patch_request self ("http://a.wunderlist.com/api/v1/lists/" ++ str_int id)
                       (dict_set "revision" r kwargs)]) /\
   (forall r, res (folder_revision self id s) = Ok r ->
      requests (trace (update_folder self id kwargs s)) =
        [get_request self ("http://a.wunderlist.com/api/v1/folders/" ++ str_int id);
         patch_request self ("http://a.wunderlist.com/api/v1/folders/" ++ str_int id)
                       (dict_set "revision" r kwargs)]) /\
   (forall r, res ((t <- get_task self id ;; lift (py_getitem t "revision")) s) = Ok r ->
      requests (trace (update_task self id kwargs s)) =
        [get_request self ("http://a.wunderlist.com/api/v1/tasks/" ++ str_int id);
         patch_request self ("http://a.wunderlist.com/api/v1/tasks/" ++ str_int id)
                       (dict_set "revision" r kwargs)]) /\
   (forall r, res ((t <- get_subtask self id ;; lift (py_getitem t "revision")) s) = Ok r ->
      requests (trace (update_subtask self id kwargs s)) =
        [get_request self ("https://a.wunderlist.com/api/v1/subtasks/" ++ str_int id);
         patch_request self ("http://a.wunderlist.com/api/v1/subtasks/" ++ str_int id)
                       (dict_set "revision" r kwargs)])) /\
  (is_none revision = false ->
   requests (trace (update_note self id content revision s)) =
     [patch_request self ("http://a.wunderlist.com/api/v1/notes/" ++ str_int id)
                    [("revision", revision); ("content", VStr content)]]) /\
  (is_none revision = true ->
   forall r, res ((n <- get_note self id ;; lift (py_getitem n "revision")) s) = Ok r ->
     requests (trace (update_note self id content revision s)) =
       [get_request self ("https://a.wunderlist.com/api/v1/notes/" ++ str_int id);
        patch_request self ("http://a.wunderlist.com/api/v1/notes/" ++ str_int id)
                      [("revision", r); ("content", VStr content)]]).
Proof.
  intros T.
  pose proof (check_kwargs_title_ok kwargs s T) as K.
  split; [|split; [|split]]; intros R;
    repeat match goal with |- _ /\ _ => split end;
    try (intros r Hr);
    unfold update_list, update_folder, update_task, update_subtask, update_note,
      list_revision, folder_revision, get_list, get_folder, get_task,
      get_subtask, get_note in *;
    rewrite ?(@bind_pure _ _ _ _ _ _ _ K), ?R; cbv [negb];
    rewrite ?bind_ret, ?fetch_then_use, ?get_fetch_then_use;
    first [ apply patch_requests
          | rewrite (@read_then_requests _ _ _ _ _ _ _ Hr); cbv beta; rewrite patch_requests; reflexivity ].
Qed.

(** X9.  A deletion sends the revision it was given, or the one it has just
    read, as the query parameter ['revision'] of its DELETE: as it is for a
    list, a subtask and a note, and turned into a string for a folder and a
    task. *)
Theorem deletions_carry_the_revision (s : S) (id : Z) (revision : value) :
  (is_none revision = false ->
   requests (trace (delete_list self id revision s)) =
     [delete_request self ("http://a.wunderlist.com/api/v1/lists/" ++ str_int id)
                     (PVal revision)] /\
   requests (trace (delete_folder self id revision s)) =
     [delete_request self ("http://a.wunderlist.com/api/v1/folders/" ++ str_int id)
                     (PStr revision)] /\
   requests (trace (delete_task self id revision s)) =
     [delete_request self ("http://a.wunderlist.com/api/v1/tasks/" ++ str_int id)
                     (PStr revision)] /\
   requests (trace (delete_subtask self id revision s)) =
     [delete_request self ("http://a.wunderlist.com/api/v1/subtasks/" ++ str_int id)
                     (PVal revision)] /\
   requests (trace (delete_note self id revision s)) =
     [delete_request self ("http://a.wunderlist.com/api/v1/notes/" ++ str_int id)
                     (PVal revision)]) /\
  (is_none revision = true ->
   (forall r, res (list_revision self id s) = Ok r ->
      requests (trace (delete_list self id revision s)) =
        [get_request self ("https://a.wunderlist.com/api/v1/lists/" ++ str_int id);
         delete_request self ("http://a.wunderlist.com/api/v1/lists/" ++ str_int id)
                        (PVal r)]) /\
   (forall r, res (folder_revision self id s) = Ok r ->
      requests (trace (delete_folder self id revision s)) =
        [get_request self ("http://a.wunderlist.com/api/v1/folders/" ++ str_int id);
         delete_request self ("http://a.wunderlist.com/api/v1/folders/" ++ str_int id)
                        (PStr r)]) /\
   (forall r, res ((t <- get_task self id ;; lift (py_getitem t "revision")) s) = Ok r ->
      requests (trace (delete_task self id revision s)) =
        [get_request self ("http://a.wunderlist.com/api/v1/tasks/" ++ str_int id);
         delete_request self ("http://a.wunderlist.com/api/v1/tasks/" ++ str_int id)
                        (PStr r)]) /\
   (forall r, res ((t <- get_subtask self id ;; lift (py_getitem t "revision")) s) = Ok r ->
      requests (trace (delete_subtask self id revision s)) =
        [get_request self ("https://a.wunderlist.com/api/v1/subtasks/" ++ str_int id);
         delete_request self ("http://a.wunderlist.com/api/v1/subtasks/" ++ str_int id)
                        (PVal r)]) /\
   (forall r, res ((n <- get_note self id ;; lift (py_getitem n "revision")) s) = Ok r ->
      requests (trace (delete_note self id revision s)) =
        [get_request self ("https://a.wunderlist.com/api/v1/notes/" ++ str_int id);
         delete_request self ("http://a.wunderlist.com/api/v1/notes/" ++ str_int id)
                        (PVal r)])).
Proof.
  split; intros R;
    repeat match goal with |- _ /\ _ => split end;
    try (intros r Hr);
    unfold delete_list, delete_folder, delete_task, delete_subtask, delete_note,
      list_revision, folder_revision, get_list, get_folder, get_task,
      get_subtask, get_note in *;
    rewrite ?R;
    rewrite ?bind_ret, ?fetch_then_use;
    first [ apply delete_requests
          | rewrite (@read_then_requests _ _ _ _ _ _ _ Hr); cbv beta; rewrite delete_requests; reflexivity ].
Qed.

End Carried.

(** ** More on the convenience methods *)

Section ConvenienceRest.
Context {S : Type} `{Service S}.
Variable self : Wunder.

(** X10.  [folder_ids] reads all the folders with one GET and fills a dict
    from title to identifier in which the last folder with a given title
    wins, and in which a title no folder has is not a key. *)
Theorem folder_ids_last_wins (s : S) (folders : value) (zs : list value) :
  res (get_folders self s) = Ok folders ->
  py_iter folders = Ok zs ->
  Forall list_record zs ->
  trace (folder_ids self s) = trace (get_folders self s) /\
  verbs (trace (get_folders self s)) = [GET] /\
  exists d,
    res (folder_ids self s) = Ok d /\
    (forall k pre z post i,
        hashable k = true ->
        zs = (pre ++ z :: post)%list ->
        field_is "title" k z = true ->
        Forall (fun y => field_is "title" k y = false) post ->
        field "id" z = Some i ->
        kd_get k d = Some i) /\
    (forall k,
        hashable k = true ->
        Forall (fun y => field_is "title" k y = false) zs ->
        kd_get k d = None).
Proof.
  intros G I R.
  destruct (@list_ids_loop_spec zs [] R (Forall_nil _)) as (d & L & _ & K).
  assert (E : folder_ids self s =
              mkOutcome (Ok d) (srv (get_folders self s)) (trace (get_folders self s))).
  { unfold folder_ids. rewrite (bind_ok _ _ _ G).
    unfold bind. rewrite !lift_run, I. simpl. rewrite L. simpl.
    rewrite !app_nil_r. reflexivity. }
  rewrite E. cbn [trace res]. split; [reflexivity|]. split.
  - unfold get_folders. rewrite _get_call. apply call_verbs.
  - exists d. split; [reflexivity|]. split.
    + intros k pre z post i Hk -> M F Hi. rewrite (K k Hk).
      rewrite (@last_titled_last k pre post z i M F Hi). reflexivity.
    + intros k Hk F. rewrite (K k Hk), (@last_titled_none k zs F). reflexivity.
Qed.

Lemma list_ids_loop_app (pre rest : list value) (acc : keydict) :
  Forall list_record pre ->
  exists acc', list_ids_loop (pre ++ rest) acc = list_ids_loop rest acc'.
Proof.
  revert acc. induction pre as [|z pre IH]; simpl; intros acc R.
  - exists acc. reflexivity.
  - inversion R as [|? ? [[i Hi] [t [Ht Hh]]] R']; subst.
    unfold field in Hi, Ht.
    destruct (py_getitem z "id") as [i0|]; [|discriminate].
    destruct (py_getitem z "title") as [t0|]; [|discriminate].
    injection Ht as ->. simpl. rewrite Hh. apply IH. exact R'.
Qed.

Lemma list_ids_stops (title : option string) (s : S) (lists : value) (zs : list value)
    (e : exc) :
  res (get_lists self s) = Ok lists ->
  py_iter lists = Ok zs ->
  list_ids_loop zs [] = Raise e ->
  list_ids self title s =
  mkOutcome (Raise e) (srv (get_lists self s)) (trace (get_lists self s)).
Proof.
  intros G I L. unfold list_ids. rewrite (bind_ok _ _ _ G).
  unfold bind. rewrite !lift_run, I. simpl. rewrite L. simpl.
  rewrite !app_nil_r. reflexivity.
Qed.

Lemma list_ids_trace (title : option string) (s : S) :
  trace (list_ids self title s) = trace (get_lists self s).
Proof.
  unfold list_ids. unfold bind at 1.
  destruct (res (get_lists self s)) as [lists|e]; cbn [trace]; [|reflexivity].
  unfold bind. rewrite lift_run. cbn [res srv trace].
  destruct (py_iter lists) as [items|e]; cbn [app]; [|apply app_nil_r].
  rewrite lift_run. cbn [res srv trace].
  destruct (list_ids_loop items []) as [d|e]; cbn [app]; [|apply app_nil_r].
  destruct title as [t|]; [destruct (kd_get (VStr t) d)|]; apply app_nil_r.
Qed.

(** X11.  [list_ids] fills its dict before it looks the requested title up:
    at the first list without an ['id'], without a ['title'] or with a title
    that cannot be a key, it raises the error of that list, whatever title
    was asked for, and it has sent only the read of the lists. *)
Theorem list_ids_stops_at_a_malformed_list
    (title : option string) (s : S) (lists z : value) (pre post : list value) :
  res (get_lists self s) = Ok lists ->
  py_iter lists = Ok (pre ++ z :: post)%list ->
  Forall list_record pre ->
  trace (list_ids self title s) = trace (get_lists self s) /\
  (forall e, py_getitem z "id" = Raise e ->
             res (list_ids self title s) = Raise e) /\
  (forall i e, py_getitem z "id" = Ok i -> py_getitem z "title" = Raise e ->
               res (list_ids self title s) = Raise e) /\
  (forall i t, py_getitem z "id" = Ok i -> py_getitem z "title" = Ok t ->
               hashable t = false ->
               res (list_ids self title s) = Raise (unhashable t)).
Proof.
  intros G I R.
  destruct (@list_ids_loop_app pre (z :: post) [] R) as (acc & A).
  split; [apply list_ids_trace|].
  split; [|split].
  - intros e Ei.
    rewrite (@list_ids_stops title s lists _ e G I); [reflexivity|].
    rewrite A. cbn [list_ids_loop]. rewrite Ei. reflexivity.
  - intros i e Ei Et.
    rewrite (@list_ids_stops title s lists _ e G I); [reflexivity|].
    rewrite A. cbn [list_ids_loop]. rewrite Ei. cbn [rbind]. rewrite Et. reflexivity.
  - intros i t Ei Et Hh.
    rewrite (@list_ids_stops title s lists _ (unhashable t) G I); [reflexivity|].
    rewrite A. cbn [list_ids_loop]. rewrite Ei. cbn [rbind]. rewrite Et. cbn [rbind].
    rewrite Hh. reflexivity.
Qed.

Lemma appended_lists (list_id : Z) (l : list value) (s : S) :
  (if negb (existsb (fun e => py_eq e (VInt list_id)) l)
   then lift (S := S) (py_append (VList l) (VInt list_id))
   else ret (VList l)) = ret (VList (appended list_id l)).
Proof.
  unfold appended. destruct (existsb (fun e => py_eq e (VInt list_id)) l); reflexivity.
Qed.

(** X12.  Whatever the service, when its two reads succeed [add_to_folder]
    writes back the lists it has read, in their order, followed by [list_id]
    unless one of them equals it, together with the revision read by
    [update_folder]: it sends a GET, a GET and that PATCH. *)
Theorem add_to_folder_writes_back
    (list_id folder_id : Z) (s : S) (folder r : value) (l : list value) :
  res (get_folder self folder_id s) = Ok folder ->
  py_getitem folder "list_ids" = Ok (VList l) ->
  res (folder_revision self folder_id (srv (get_folder self folder_id s))) = Ok r ->
  requests (trace (add_to_folder self list_id folder_id s)) =
    [get_request self ("http://a.wunderlist.com/api/v1/folders/" ++ str_int folder_id);
     get_request self ("http://a.wunderlist.com/api/v1/folders/" ++ str_int folder_id);
     patch_request self ("http://a.wunderlist.com/api/v1/folders/" ++ str_int folder_id)
                   [("list_ids", VList (appended list_id l)); ("revision", r)]].
Proof.
  intros G L R. unfold add_to_folder.
  rewrite (bind_ok _ _ _ G). cbn [trace].
  rewrite L, lift_ok, bind_ret. cbn [py_contains]. rewrite lift_ok, bind_ret.
  rewrite (appended_lists list_id l s), bind_ret.
  unfold update_folder.
  rewrite (@bind_pure _ _ _ (check_kwargs_title [("list_ids", VList (appended list_id l))])
             _ _ tt eq_refl).
  change (negb (dict_has "revision" [("list_ids", VList (appended list_id l))])) with true.
  cbv iota. rewrite fetch_then_use.
  unfold requests. rewrite map_app. fold (requests (trace (get_folder self folder_id s))).
  unfold folder_revision, get_folder in *.
  rewrite (@read_then_requests _ _ self _ _ _ _ _ _ _ R). cbv beta.
  rewrite patch_requests, _get_call, call_trace. reflexivity.
Qed.

Lemma trace_then_pure A B C (m : M S A) (f : A -> result B) (g : B -> C) (s : S) :
  trace (bind m (fun x => bind (lift (f x)) (fun p => ret (g p))) s) = trace (m s).
Proof.
  unfold bind at 1. destruct (res (m s)) as [a|e]; cbn [trace]; [|reflexivity].
  unfold bind. rewrite lift_run. cbn [res srv trace].
  destruct (f a); apply app_nil_r.
Qed.

(** X13.  [make_list_public] never reads the revision: it always sends
    exactly one request, a PATCH with ['public'] set, and with the revision
    only when one is given.  When the body of the response is accepted but
    has no ['public'] entry, it raises [KeyError]. *)
Theorem make_list_public_one_patch (list_id : Z) (revision : value) (s : S) :
  requests (trace (make_list_public self list_id revision s)) =
    [patch_request self ("http://a.wunderlist.com/api/v1/lists/" ++ str_int list_id)
       (if is_none revision
        then [("public", VBool true)]
        else [("public", VBool true); ("revision", revision)])] /\
  (forall rq resp d,
      trace (make_list_public self list_id revision s) = [(rq, resp)] ->
      json resp = Ok (VDict d) ->
      dict_get "error" d = None ->
      dict_get "public" d = None ->
      res (make_list_public self list_id revision s) = Raise (KeyError (VStr "public"))).
Proof.
  unfold make_list_public. cbv zeta. split.
  - rewrite trace_then_pure, _patch_call, call_trace.
    destruct (is_none revision); reflexivity.
  - intros rq resp d. rewrite trace_then_pure, _patch_call, call_trace.
    intros [= <- <-] J E P.
    set (q := mkRequest PATCH _ None _ _) in *.
    assert (C : res (call q s) = Ok (VDict d)).
    { apply call_returns. split; [exact J|]. right. eauto. }
    rewrite (bind_ok _ _ _ C). cbn [res]. unfold bind. rewrite lift_run.
    cbn [res py_getitem]. rewrite P. reflexivity.
Qed.

(** X14.  An update whose ['title'] has no length ([None], a boolean or an
    integer) raises the [TypeError] of [len] and sends nothing. *)
Theorem update_title_without_length
    (s : S) (id : Z) (kwargs : pydict) (t : value) :
  dict_get "title" kwargs = Some t ->
  t = VNone \/ (exists b, t = VBool b) \/ (exists n, t = VInt n) ->
  exists msg,
    fails_before_sending (update_list self id kwargs s) s (TypeError msg) /\
    fails_before_sending (update_folder self id kwargs s) s (TypeError msg) /\
    fails_before_sending (update_task self id kwargs s) s (TypeError msg) /\
    fails_before_sending (update_subtask self id kwargs s) s (TypeError msg).
Proof.
  intros D K.
  assert (E : exists msg, check_kwargs_title (S := S) kwargs s =
                          mkOutcome (Raise (TypeError msg)) s []).
  { unfold check_kwargs_title. rewrite D.
    destruct K as [->|[[b ->]|[n ->]]]; eexists; reflexivity. }
  destruct E as (msg & E). exists msg.
  unfold fails_before_sending, update_list, update_folder, update_task, update_subtask.
  rewrite !(@bind_stop _ _ _ _ _ _ _ _ _ E). repeat split.
Qed.

(** X15.  [get_note_id] stops after the read of the task when the task has
    no list to look in: it raises the [KeyError] of the missing ['list_id'],
    or the [TypeError] of [get_notes] when the ['list_id'] is [None], and the
    read of the task is its only request. *)
Theorem get_note_id_without_a_list (task_id : Z) (s : S) (task : value) :
  res (get_task self task_id s) = Ok task ->
  (forall e, py_getitem task "list_id" = Raise e ->
             res (get_note_id self task_id s) = Raise e /\
             trace (get_note_id self task_id s) = trace (get_task self task_id s)) /\
  (py_getitem task "list_id" = Ok VNone ->
   res (get_note_id self task_id s) = Raise (exactly_one "get_notes") /\
   trace (get_note_id self task_id s) = trace (get_task self task_id s)).
Proof.
  intros G. unfold get_note_id. rewrite (bind_ok _ _ _ G). cbn [res trace].
  split.
  - intros e L. unfold bind. rewrite lift_run, L. cbn [res trace].
    split; [reflexivity | apply app_nil_r].
  - intros L. rewrite L, lift_ok, bind_ret. unfold get_notes. cbn [is_none andb].
    rewrite bind_assoc, bind_raise_now. cbn [res trace].
    split; [reflexivity | apply app_nil_r].
Qed.

End ConvenienceRest.

(** ** More statements at sample inputs *)

Lemma plain_reads_return_the_body_witness :
  plain_read (S := script) me (GetList 5) = Some (get_list me 5) /\
  res (get_list me 5 [ok_json task_nine]) = Ok task_nine.
Proof.
  split; [reflexivity|].
  destruct (@plain_reads_return_the_body script scripted me (GetList 5) (get_list me 5)
              [ok_json task_nine] eq_refl) as (rq & resp & T & _ & _ & R).
  injection T as <- <-. apply R. split; [reflexivity|].
  right. eexists. split; reflexivity.
Defined.

Lemma validator_accepts_exactly_witness :
  _check_response (ok_json task_nine) = Ok tt /\
  (exists e, _check_response conflict = Raise e).
Proof.
  split.
  - apply (proj1 (validator_accepts_exactly (ok_json task_nine))).
    exists task_nine. split; [reflexivity|]. right. eexists. split; reflexivity.
  - apply (proj1 (proj2 (validator_accepts_exactly conflict)) _ _ eq_refl eq_refl).
Defined.

Lemma creations_post_once_witness :
  (String.length longest_title <= 255)%nat /\
  requests (trace (make_list me longest_title ([] : script))) =
    [mkRequest POST "http://a.wunderlist.com/api/v1/lists" None
       (Some (VDict [("title", VStr longest_title)])) (headers_payload me)].
Proof.
  assert (L : (String.length longest_title <= 255)%nat) by (vm_compute; lia).
  split; [exact L|].
  apply (@creations_post_once script scripted me longest_title "milk" [1] 9 false [] L).
Defined.

Lemma make_task_payload_witness :
  (String.length "bread" <= 255)%nat /\
  NoDup (map fst [("starred", VBool true)]) /\
  ~ In "list_id" (map fst [("starred", VBool true)]) /\
  ~ In "title" (map fst [("starred", VBool true)]) /\
  requests (trace (make_task me 11 "bread" [("starred", VBool true)] ([] : script))) =
    [mkRequest POST "https://a.wunderlist.com/api/v1/tasks" None
       (Some (VDict [("list_id", VInt 11); ("title", VStr "bread");
                     ("starred", VBool true)]))
       (headers_payload me)].
Proof.
  assert (L : (String.length "bread" <= 255)%nat) by (simpl; lia).
  assert (N : NoDup (map fst [("starred", VBool true)]))
    by (repeat constructor; intros []).
  assert (NL : ~ In "list_id" (map fst [("starred", VBool true)]))
    by (intros [E|[]]; discriminate).
  assert (NT : ~ In "title" (map fst [("starred", VBool true)]))
    by (intros [E|[]]; discriminate).
  split; [exact L|]. split; [exact N|]. split; [exact NL|]. split; [exact NT|].
  apply (@make_task_payload script scripted me 11 "bread" [("starred", VBool true)]
           [] L N NL NT).
Defined.

Lemma updates_carry_the_fields_witness :
  title_ok [("title", VStr "Groceries")] /\
  requests (trace (update_list me 5 [("title", VStr "Groceries")]
                     [ok_json (VDict [("id", VInt 5); ("revision", VInt 3)]);
                      ok_json (VDict [])])) =
    [get_request me "https://a.wunderlist.com/api/v1/lists/5";
     patch_request me "http://a.wunderlist.com/api/v1/lists/5"
                   [("title", VStr "Groceries"); ("revision", VInt 3)]].
Proof.
  assert (T : title_ok [("title", VStr "Groceries")]) by reflexivity.
  split; [exact T|].
  apply (proj1 (proj1 (proj2 (@updates_carry_the_fields script scripted me
           [ok_json (VDict [("id", VInt 5); ("revision", VInt 3)]); ok_json (VDict [])]
           5 [("title", VStr "Groceries")] "milk" VNone T)) eq_refl) (VInt 3)).
  reflexivity.
Defined.

Lemma deletions_carry_the_revision_witness :
  requests (trace (delete_folder me 7 (VInt 4) ([] : script))) =
    [delete_request me "http://a.wunderlist.com/api/v1/folders/7" (PStr (VInt 4))] /\
  requests (trace (delete_note me 100 VNone [ok_json (VDict [("revision", VInt 6)])])) =
    [get_request me "https://a.wunderlist.com/api/v1/notes/100";
     delete_request me "http://a.wunderlist.com/api/v1/notes/100" (PVal (VInt 6))].
Proof.
  split.
  - apply (proj1 (@deletions_carry_the_revision script scripted me [] 7 (VInt 4))).
    reflexivity.
  - apply (proj2 (@deletions_carry_the_revision script scripted me
                    [ok_json (VDict [("revision", VInt 6)])] 100 VNone) eq_refl).
    reflexivity.
Defined.

Lemma list_records_three_folders : Forall list_record three_folders.
Proof. repeat constructor; eexists; try split; reflexivity. Qed.

Lemma folder_ids_last_wins_witness :
  exists d,
    res (folder_ids me [ok_json (VList three_folders)]) = Ok d /\
    kd_get (VStr "Home") d = Some (VInt 9) /\
    kd_get (VStr "Play") d = None.
Proof.
  destruct (@folder_ids_last_wins script scripted me [ok_json (VList three_folders)]
              (VList three_folders) three_folders eq_refl eq_refl
              list_records_three_folders) as (_ & _ & d & R & Last & Absent).
  exists d. split; [exact R|]. split.
  - apply (Last (VStr "Home")
                [VDict [("id", VInt 7); ("title", VStr "Home")];
                 VDict [("id", VInt 8); ("title", VStr "Work")]]
                (VDict [("id", VInt 9); ("title", VStr "Home")]) []);
      try reflexivity. constructor.
  - apply Absent; [reflexivity | repeat constructor].
Defined.

Lemma list_record_before_the_gap :
  Forall list_record [VDict [("id", VInt 11); ("title", VStr "Groceries")]].
Proof. repeat constructor; eexists; try split; reflexivity. Qed.

Lemma list_ids_stops_at_a_malformed_list_witness :
  res (list_ids me (Some "Groceries") [ok_json (VList lists_with_a_gap)]) =
    Raise (KeyError (VStr "id")).
Proof.
  apply (proj1 (proj2 (@list_ids_stops_at_a_malformed_list script scripted me
           (Some "Groceries") [ok_json (VList lists_with_a_gap)]
           (VList lists_with_a_gap) (VDict [("title", VStr "Work")])
           [VDict [("id", VInt 11); ("title", VStr "Groceries")]] []
           eq_refl eq_refl list_record_before_the_gap))).
  reflexivity.
Defined.

Lemma add_to_folder_writes_back_witness :
  requests (trace (add_to_folder me 3 7 home)) =
    [get_request me "http://a.wunderlist.com/api/v1/folders/7";
     get_request me "http://a.wunderlist.com/api/v1/folders/7";
     patch_request me "http://a.wunderlist.com/api/v1/folders/7"
                   [("list_ids", VList [VInt 1; VInt 2; VInt 3]); ("revision", VInt 4)]].
Proof.
  apply (@add_to_folder_writes_back folders folder_service me 3 7 home
           (folder_json 7 (mkFolder "Home" [1; 2] 4)) (VInt 4) [VInt 1; VInt 2]
           eq_refl eq_refl eq_refl).
Defined.

Lemma make_list_public_one_patch_witness :
  requests (trace (make_list_public me 5 (VInt 3) ([] : script))) =
    [patch_request me "http://a.wunderlist.com/api/v1/lists/5"
                   [("public", VBool true); ("revision", VInt 3)]] /\
  res (make_list_public me 5 VNone [ok_json task_nine]) = Raise (KeyError (VStr "public")).
Proof.
  split.
  - apply (proj1 (@make_list_public_one_patch script scripted me 5 (VInt 3) [])).
  - apply (proj2 (@make_list_public_one_patch script scripted me 5 VNone
                    [ok_json task_nine]) _ _ _ eq_refl eq_refl eq_refl eq_refl).
Defined.

Lemma update_title_without_length_witness :
  exists msg,
    fails_before_sending (update_task me 9 [("title", VNone)] ([] : script)) []
                         (TypeError msg).
Proof.
  destruct (@update_title_without_length script scripted me [] 9 [("title", VNone)] VNone
              eq_refl (or_introl eq_refl)) as (msg & _ & _ & T & _).
  exists msg. exact T.
Defined.

Lemma get_note_id_without_a_list_witness :
  res (get_note_id me 9 [ok_json loose_task]) = Raise (exactly_one "get_notes") /\
  List.length (trace (get_note_id me 9 [ok_json loose_task])) = 1%nat.
Proof.
  destruct (proj2 (@get_note_id_without_a_list script scripted me 9 [ok_json loose_task]
                     loose_task eq_refl) eq_refl) as [R T].
  split; [exact R|]. exact (eq_trans (f_equal (@List.length _) T) eq_refl).
Defined.
